(** * mp_orders: the fetch worker and the dispatch loop of [mp_orders.py]

    A shallow embedding of [fetch_payment] and of the collecting part of
    [main], with the Python built-ins they rely on, followed by the
    properties of the retry loop, of the field extraction and of the
    result sink.

    Conventions.
    - A Python [str] is a [string]; each [ascii] stands for the code point
      of the same number (0..255, the Latin-1 range, which is the range of
      the header values that the HTTP client hands over).
    - A Python [int] is a [Z].
    - Floating point is not modelled: a sleep duration is an exact
      rational, without the rounding of a float, and a float found in a JSON
      body is kept as the two things the code can observe of it (whether
      it is zero, how [str] prints it). What [time.sleep] does with a
      duration it does not accept is modelled. *)

From Stdlib Require Import ZArith QArith Qpower String Ascii List Bool Lia.
From Stdlib Require Import DecimalString Permutation.
Import ListNotations.

Open Scope string_scope.
Open Scope Z_scope.

(** ** Python built-ins used by the program *)

Module Py.

(** Values as [resp.json()] returns them. A [dict] keeps its insertion
    order and has no two entries with the same key. *)
#[warnings="-register-all"]
Inductive pyval : Type :=
| PyNone
| PyBool (b : bool)
| PyInt (n : Z)
| PyFloat (is_zero : bool) (printed : string)
| PyStr (s : string)
| PyList (items : list pyval)
| PyDict (entries : list (string * pyval)).

(** [bool(v)] *)
Definition truthy (v : pyval) : bool :=
  match v with
  | PyNone => false
  | PyBool b => b
  | PyInt n => negb (n =? 0)
  | PyFloat is_zero _ => negb is_zero
  | PyStr s => negb (s =? "")%string
  | PyList items => match items with [] => false | _ :: _ => true end
  | PyDict entries => match entries with [] => false | _ :: _ => true end
  end.

(** [a or b] *)
Definition or_ (a b : pyval) : pyval := if truthy a then a else b.

(** [err or default], for [err] that is [None] or a [str] *)
Definition or_str (err : option string) (default : string) : string :=
  match err with
  | Some e => if (e =? "")%string then default else e
  | None => default
  end.

(** [isinstance(v, dict)], giving the entries *)
Definition as_dict (v : pyval) : option (list (string * pyval)) :=
  match v with PyDict entries => Some entries | _ => None end.

(** [d[key]], when [key in d] *)
Fixpoint lookup (entries : list (string * pyval)) (key : string) : option pyval :=
  match entries with
  | [] => None
  | (k, v) :: rest => if (k =? key)%string then Some v else lookup rest key
  end.

(** [d.get(key)] *)
Definition get (entries : list (string * pyval)) (key : string) : pyval :=
  match lookup entries key with
  | Some v => v
  | None => PyNone
  end.

(** [str(n)] for an [int] *)
Definition str_int (n : Z) : string := NilZero.string_of_int (Z.to_int n).

Definition dq : ascii := ascii_of_nat 34.
Definition sq : ascii := ascii_of_nat 39.
Definition backslash : ascii := ascii_of_nat 92.

Fixpoint mem_char (c : ascii) (s : string) : bool :=
  match s with
  | EmptyString => false
  | String c' s' => (c =? c')%char || mem_char c s'
  end.

Definition hex_digit (n : nat) : ascii :=
  nth n (list_ascii_of_string "0123456789abcdef") "0"%char.

(** [str.isprintable] on one character of the Latin-1 range *)
Definition isprintable (c : ascii) : bool :=
  let n := nat_of_ascii c in
  ((32 <=? n) && (n <? 127) || (161 <=? n) && negb (n =? 173))%nat.

Definition repr_char (quote c : ascii) : string :=
  let n := nat_of_ascii c in
  if ((c =? quote) || (c =? backslash))%char then String backslash (String c "")
  else if (n =? 9)%nat then String backslash "t"
  else if (n =? 10)%nat then String backslash "n"
  else if (n =? 13)%nat then String backslash "r"
  else if isprintable c then String c ""
  else String backslash
         (String "x" (String (hex_digit (n / 16)) (String (hex_digit (n mod 16)) ""))).

Fixpoint repr_chars (quote : ascii) (s : string) : string :=
  match s with
  | EmptyString => EmptyString
  | String c s' => repr_char quote c ++ repr_chars quote s'
  end.

(** [repr(s)] for a [str] *)
Definition repr_str (s : string) : string :=
  let quote := if mem_char sq s && negb (mem_char dq s) then dq else sq in
  String quote (repr_chars quote s ++ String quote "").

Fixpoint join (sep : string) (parts : list string) : string :=
  match parts with
  | [] => ""
  | [p] => p
  | p :: rest => p ++ sep ++ join sep rest
  end.

(** [repr(v)] *)
Fixpoint repr (v : pyval) : string :=
  match v with
  | PyNone => "None"
  | PyBool true => "True"
  | PyBool false => "False"
  | PyInt n => str_int n
  | PyFloat _ printed => printed
  | PyStr s => repr_str s
  | PyList items => "[" ++ join ", " (map repr items) ++ "]"
  | PyDict entries =>
      "{" ++ join ", " (map (fun kv => repr_str (fst kv) ++ ": " ++ repr (snd kv)) entries)
          ++ "}"
  end.

(** [str(v)] *)
Definition str (v : pyval) : string :=
  match v with
  | PyStr s => s
  | _ => repr v
  end.

(** [s.startswith(prefix)] *)
Definition startswith (s prefix : string) : bool := String.prefix prefix s.

(** [s[:n]] *)
Definition slice_to (n : nat) (s : string) : string := String.substring 0 n s.

Definition is_ascii_digit (c : ascii) : bool :=
  let n := nat_of_ascii c in ((48 <=? n) && (n <=? 57))%nat.

(** The characters of the Latin-1 range that [str.isdigit] accepts: the
    decimal digits and the superscript digits U+00B2, U+00B3, U+00B9. *)
Definition isdigit_char (c : ascii) : bool :=
  let n := nat_of_ascii c in
  is_ascii_digit c || (n =? 178)%nat || (n =? 179)%nat || (n =? 185)%nat.

Fixpoint all_chars (p : ascii -> bool) (s : string) : bool :=
  match s with
  | EmptyString => true
  | String c s' => p c && all_chars p s'
  end.

(** [s.isdigit()] *)
Definition isdigit (s : string) : bool :=
  negb (s =? "")%string && all_chars isdigit_char s.

Fixpoint decimal_value (acc : Z) (s : string) : Z :=
  match s with
  | EmptyString => acc
  | String c s' => decimal_value (10 * acc + (Z.of_nat (nat_of_ascii c) - 48)) s'
  end.

(** [float(s)] on a string that [isdigit] accepts: the value of a string
    of decimal digits, [ValueError] on any other character ([None]). *)
Definition float_of_digits (s : string) : option Q :=
  if all_chars is_ascii_digit s then Some (inject_Z (decimal_value 0 s)) else None.

End Py.

(** ** What one GET can do *)

Module Http.

(** What [resp.json()] does on the body: it returns the decoded value; or
    raises [json.JSONDecodeError]; or raises a [ValueError] that is no
    [JSONDecodeError] (an integer of more digits than the interpreter
    converts); or raises another exception that is no request exception
    ([RecursionError] on a deeply nested body). *)
Inductive json_result : Type :=
| Decoded (v : Py.pyval)
| JSONDecodeError
| JsonValueError (msg : string)
| JsonOtherException (msg : string).

(** The parts of a [requests.Response] that [fetch_payment] reads:
    [resp.status_code], [resp.headers.get] of the two headers it asks
    for, [resp.json()] and [resp.text]. *)
Record response : Type := {
  status_code : Z;
  content_type : option string;
  retry_after_header : option string;
  json : json_result;
  text : string
}.

(** Exceptions, by what [except requests.RequestException] makes of them.
    An [OverflowError] is kept without its message, whose text depends on
    the operation that raises it. *)
Inductive exn : Type :=
| RequestException (msg : string)
| ValueError (msg : string)
| OverflowError
| OtherException (msg : string).


(** [sess.get(url, ...)] returns a response or raises. *)
Inductive attempt_result : Type :=
| Responds (resp : response)
| Raises (e : exn).

End Http.

Import Http.

(** ** [fetch_payment] *)

Definition API_BASE : string := "https://api.mercadopago.com/v1/payments".

(** The row dict, with its five keys. *)
Record row : Type := {
  payment_id : string;
  order_id : string;
  external_reference : string;
  http_status : Z;
  error : string
}.

(** What a worker does that the outside can see: a request it issued, a
    sleep it carried out. A [time.sleep] that raised is no sleep. *)
Inductive event : Type :=
| Get (url : string)
| Sleep (seconds : Q).

(** How a call ends. *)
Inductive completion : Type :=
| Returned (r : row)
| Raised (e : exn).

(** How one pass through the body of the [for] loop ends. *)
Inductive step : Type :=
| Continue (sleep_s : Q)
| Return (r : row)
| Raise (e : exn).

(** How the [for] loop ends: inside its body, or by running out of
    attempt numbers. *)
Inductive loop_exit : Type :=
| Finished (c : completion)
| FellThrough.

Definition is_2xx (status : Z) : bool := (200 <=? status) && (status <? 300).

(** [status in (429, 500, 502, 503, 504)] *)
Definition retryable (status : Z) : bool :=
  existsb (Z.eqb status) [429; 500; 502; 503; 504].

(** [range(a, b)] *)
Definition range (a b : Z) : list Z :=
  map (fun i => a + Z.of_nat i) (seq 0 (Z.to_nat (b - a))).

Section FetchPayment.

Variable payment_id' : string.
Variable max_retries : Z.
Variable backoff : Q.

Definition url : string := API_BASE ++ "/" ++ payment_id'.

(** Line 55: [resp.headers.get("Content-Type", "")] *)
Definition ct (resp : response) : string :=
  match content_type resp with Some v => v | None => "" end.

(** Lines 57-66: [data] and [err] after the body has been looked at. *)
Definition read_body (resp : response) : Py.pyval * option string :=
  let status := status_code resp in
  if Py.startswith (ct resp) "application/json" then
    match json resp with
    | Decoded v => (v, None)
    | JSONDecodeError => (Py.PyNone, Some "Invalid JSON in response")
    | JsonValueError _ | JsonOtherException _ => (Py.PyNone, None)
    end
  else if negb (is_2xx status) then (Py.PyNone, Some (Py.slice_to 500 (text resp)))
  else (Py.PyNone, None).

(** Lines 59-63: the exception that leaves the inner [try], if one does:
    what [resp.json()] raises other than [json.JSONDecodeError]. [data]
    and [err] are then still [None], as [read_body] has them. *)
Definition body_exception (resp : response) : option exn :=
  if Py.startswith (ct resp) "application/json" then
    match json resp with
    | JsonValueError msg => Some (ValueError msg)
    | JsonOtherException msg => Some (OtherException msg)
    | Decoded _ | JSONDecodeError => None
    end
  else None.

(** The first duration that is too long for [time.sleep]: 2^63
    nanoseconds, in seconds. *)
Definition SLEEP_LIMIT : Q := 9223372036854775808 # 1000000000.


(** [time.sleep(seconds)]: the exception it raises instead of sleeping, if
    it does: [OverflowError] for a duration out of the range of the clock
    (for a power beyond the range of a float it is [**] that raises it),
    [ValueError] for a negative one. *)
Definition time_sleep (seconds : Q) : option exn :=
  if Qle_bool SLEEP_LIMIT seconds || negb (Qle_bool (- SLEEP_LIMIT) seconds)
  then Some OverflowError
  else if negb (Qle_bool 0 seconds)
  then Some (ValueError "sleep length must be non-negative")
  else None.

(** Lines 70-71: the duration to sleep before the next attempt;
    [inr] when [float] raises. *)
Definition sleep_s (resp : response) (attempt : Z) : Q + exn :=
  match retry_after_header resp with
  | Some retry_after =>
      if negb (retry_after =? "")%string && Py.isdigit retry_after then
        match Py.float_of_digits retry_after with
        | Some seconds => inl seconds
        | None => inr (ValueError ("could not convert string to float: "
                                     ++ Py.repr_str retry_after))
        end
      else inl (Qpower backoff attempt)
  | None => inl (Qpower backoff attempt)
  end.

(** Lines 75-101: the row returned for a response that is not retried. *)
Definition terminal_row (resp : response) : row :=
  let status := status_code resp in
  let '(data, err) := read_body resp in
  match (if is_2xx status then Py.as_dict data else None) with
  | Some entries =>
      let order := Py.get entries "order" in
      let order_id :=
        match Py.as_dict order with
        | Some order_entries => Py.str (Py.or_ (Py.get order_entries "id") (Py.PyStr ""))
        | None => ""
        end in
      let external_reference :=
        Py.str (Py.or_ (Py.get entries "external_reference") (Py.PyStr "")) in
      {| payment_id := payment_id';
         order_id := order_id;
         external_reference := external_reference;
         http_status := status;
         error := "" |}
  | None =>
      let err :=
        match Py.as_dict data with
        | Some entries =>
            let api_msg :=
              Py.or_ (Py.get entries "message")
                     (Py.or_ (Py.get entries "error") (Py.get entries "cause")) in
            if Py.truthy api_msg then Some (Py.str api_msg) else err
        | None => err
        end in
      {| payment_id := payment_id';
         order_id := "";
         external_reference := "";
         http_status := status;
         error := Py.or_str err ("HTTP " ++ Py.str_int status) |}
  end.

(** Lines 106-112: the row returned when the last attempt raised a
    request exception. *)
Definition failed_row (msg : string) : row :=
  {| payment_id := payment_id';
     order_id := "";
     external_reference := "";
     http_status := 0;
     error := "Request failed: " ++ msg |}.

(** Lines 115-121: the row after the loop. *)
Definition fallback_row : row :=
  {| payment_id := payment_id';
     order_id := "";
     external_reference := "";
     http_status := 0;
     error := "Exhausted retries" |}.

(** Lines 72 and 104: the sleep before the next attempt, or the exception
    of [time.sleep], which nothing catches. *)
Definition sleep_then_continue (seconds : Q) : step :=
  match time_sleep seconds with
  | None => Continue seconds
  | Some e => Raise e
  end.

(** Lines 102-112: an exception raised inside the [try]. *)
Definition on_exception (attempt : Z) (e : exn) : step :=
  match e with
  | RequestException msg =>
      if attempt <? max_retries then sleep_then_continue (Qpower backoff attempt)
      else Return (failed_row msg)
  | _ => Raise e
  end.

(** Lines 52-112: the body of the loop, given what the GET did. *)
Definition loop_body (attempt : Z) (got : attempt_result) : step :=
  match got with
  | Responds resp =>
      match body_exception resp with
      | Some e => on_exception attempt e
      | None =>
          if retryable (status_code resp) && (attempt <? max_retries) then
            match sleep_s resp attempt with
            | inl seconds => sleep_then_continue seconds
            | inr e => on_exception attempt e
            end
          else Return (terminal_row resp)
      end
  | Raises e => on_exception attempt e
  end.

(** The server, as seen by this worker: what the GET of each attempt does. *)
Variable server : Z -> attempt_result.

(** Line 51: [for attempt in ...], over the attempt numbers left. *)
Fixpoint for_attempts (attempts : list Z) : list event * loop_exit :=
  match attempts with
  | [] => ([], FellThrough)
  | attempt :: rest =>
      match loop_body attempt (server attempt) with
      | Continue seconds =>
          let '(events, exit) := for_attempts rest in
          (Get url :: Sleep seconds :: events, exit)
      | Return r => ([Get url], Finished (Returned r))
      | Raise e => ([Get url], Finished (Raised e))
      end
  end.

Definition fetch_payment : list event * completion :=
  let '(events, exit) := for_attempts (range 1 (max_retries + 1)) in
  match exit with
  | Finished c => (events, c)
  | FellThrough => (events, Returned fallback_row)
  end.

End FetchPayment.

(** ** The dispatch loop of [main] *)

(** Lines of the output CSV. *)
Inductive csv_line : Type :=
| Header (fieldnames : list string)
| DataRow (r : row).

(** What a run of [main] leaves behind: the output file ([None] when it
    was never opened), the counter [processed], and the exception that
    ended the run, if one did. *)
Record main_result : Type := {
  outfile : option (list csv_line);
  processed : nat;
  uncaught : option exn
}.

Definition fieldnames : list string :=
  ["payment_id"; "order_id"; "external_reference"; "http_status"; "error"].

Section Main.

(** [args.workers] *)
Variable workers : Z.

(** [args.retries] *)
Variable retries : Z.

(** What [writer.writerow(row)] does with a row: it writes it, or raises
    ([UnicodeEncodeError] for a field with a character that UTF-8 cannot
    encode, which no string of this model holds). *)
Variable writerow : row -> option exn.

(** The server as seen by the task submitted for the i-th identifier. *)
Variable network : nat -> Z -> attempt_result.

(** Lines 168-179: one future per identifier, holding what
    [future.result()] will do. *)
Definition futures (payment_ids : list string) : list completion :=
  map (fun task => snd (fetch_payment (snd task) retries (12 # 10) (network (fst task))))
      (combine (seq 0 (length payment_ids)) payment_ids).

(** [as_completed(futures)]: the futures in the order in which they
    complete, [order] listing their positions. *)
Definition as_completed (order : list nat) (fs : list completion) : list completion :=
  flat_map (fun i => match nth_error fs i with Some f => [f] | None => [] end) order.

(** Lines 181-186: [row = future.result()] re-raises what the task
    raised, and [writer.writerow(row)] may raise; nothing catches either.
    Otherwise the row is written and counted. *)
Fixpoint write_rows (completed : list completion) (written : list csv_line)
         (count : nat) : list csv_line * nat * option exn :=
  match completed with
  | [] => (written, count, None)
  | Returned r :: rest =>
      match writerow r with
      | None => write_rows rest (written ++ [DataRow r]) (S count)
      | Some e => (written, count, Some e)
      end
  | Raised e :: _ => (written, count, Some e)
  end.

(** Lines 152-191, for the identifiers that [parse_ids] gave. The header
    is written before [ThreadPoolExecutor] is given the number of
    workers, which it refuses when it is not positive. *)
Definition main (payment_ids : list string) (order : list nat) : main_result :=
  let total := length payment_ids in
  if (total =? 0)%nat then {| outfile := None; processed := 0; uncaught := None |}
  else if workers <=? 0 then
    {| outfile := Some [Header fieldnames]; processed := 0;
       uncaught := Some (ValueError "max_workers must be greater than 0") |}
  else
    let '(written, count, exc) :=
      write_rows (as_completed order (futures payment_ids)) [Header fieldnames] 0 in
    {| outfile := Some written; processed := count; uncaught := exc |}.

End Main.

(** The rows of an output file. *)
Definition data_rows (lines : list csv_line) : list row :=
  flat_map (fun l => match l with DataRow r => [r] | Header _ => [] end) lines.

(** The outcomes that the sink received. *)
Definition sink (res : main_result) : list row :=
  match outfile res with
  | Some lines => data_rows lines
  | None => []
  end.

(** [needle in haystack] for two strings *)
Fixpoint contains (haystack needle : string) : bool :=
  String.prefix needle haystack
  || match haystack with
     | EmptyString => false
     | String _ rest => contains rest needle
     end.

(** The attempts of the loop from [attempt] on. *)
Definition loop_from (payment_id' : string) (max_retries : Z) (backoff : Q)
           (server : Z -> attempt_result) (attempt : Z) : list event * loop_exit :=
  for_attempts payment_id' max_retries backoff server (range attempt (max_retries + 1)).

(** ** Sample responses *)

Module Samples.

(** The one-character string U+00B2, SUPERSCRIPT TWO. *)
Definition superscript_two : string := String (ascii_of_nat 178) "".

Definition json_response (status : Z) (body : Py.pyval) : response :=
  {| status_code := status;
     content_type := Some "application/json; charset=utf-8";
     retry_after_header := None;
     json := Decoded body;
     text := "" |}.

Definition plain_response (status : Z) (body : string) : response :=
  {| status_code := status;
     content_type := Some "text/plain";
     retry_after_header := None;
     json := JSONDecodeError;
     text := body |}.

(** [{"order": {"id": "123"}, "external_reference": "ref-9"}] *)
Definition paid : response :=
  json_response 200
    (Py.PyDict [("order", Py.PyDict [("id", Py.PyStr "123")]);
                ("external_reference", Py.PyStr "ref-9")]).

(** [{"order": {"id": 0}, "external_reference": null}] *)
Definition paid_falsy : response :=
  json_response 200
    (Py.PyDict [("order", Py.PyDict [("id", Py.PyInt 0)]);
                ("external_reference", Py.PyNone)]).

(** The body of [paid], sent as [text/plain]. *)
Definition paid_as_text : response :=
  {| status_code := 200;
     content_type := Some "text/plain";
     retry_after_header := None;
     json := json paid;
     text := "" |}.

Definition rate_limited (retry_after : option string) : response :=
  {| status_code := 429;
     content_type := Some "text/plain";
     retry_after_header := retry_after;
     json := JSONDecodeError;
     text := "slow down" |}.

(** [{"message": "internal_error"}] *)
Definition server_error : response :=
  json_response 500 (Py.PyDict [("message", Py.PyStr "internal_error")]).

Definition not_found : response := plain_response 404 "Not Found".

Definition html_page : response :=
  {| status_code := 200;
     content_type := Some "text/html";
     retry_after_header := None;
     json := JSONDecodeError;
     text := "<html></html>" |}.

Definition truncated_json : response :=
  {| status_code := 200;
     content_type := Some "application/json";
     retry_after_header := None;
     json := JSONDecodeError;
     text := "{" |}.


(** A 503 declared as JSON whose body is nested too deeply for
    [resp.json()], which raises [RecursionError]. *)
Definition deeply_nested : response :=
  {| status_code := 503;
     content_type := Some "application/json";
     retry_after_header := Some "1";
     json := JsonOtherException "maximum recursion depth exceeded";
     text := "[[[[[[[[" |}.

(** A writer that writes every row. *)
Definition writes_all (r : row) : option exn := None.

(** A writer that cannot encode the row of the identifier "a". *)
Definition cannot_encode_a (r : row) : option exn :=
  if (payment_id r =? "a")%string
  then Some (OtherException "'utf-8' codec can't encode character: surrogates not allowed")
  else None.

End Samples.

(** ** Reading the identifiers *)

Module Text.

(** [str.isspace] on one character of the Latin-1 range: the characters
    that [str.strip()] removes. *)
Definition isspace_char (c : ascii) : bool :=
  let n := nat_of_ascii c in
  ((9 <=? n) && (n <=? 13) || (28 <=? n) && (n <=? 32) || (n =? 133) || (n =? 160))%nat.

(** [s.lstrip()] *)
Fixpoint lstrip (s : string) : string :=
  match s with
  | EmptyString => EmptyString
  | String c s' => if isspace_char c then lstrip s' else s
  end.

(** [s.rstrip()] *)
Fixpoint rstrip (s : string) : string :=
  match s with
  | EmptyString => EmptyString
  | String c s' =>
      match rstrip s' with
      | EmptyString => if isspace_char c then EmptyString else String c EmptyString
      | kept => String c kept
      end
  end.

(** [s.strip()] *)
Definition strip (s : string) : string := rstrip (lstrip s).

Definition LF : ascii := ascii_of_nat 10.
Definition CR : ascii := ascii_of_nat 13.

(** Puts one more character in front of the first line. *)
Definition cons_line (c : ascii) (lines : list string) : list string :=
  match lines with
  | [] => [String c EmptyString]
  | line :: rest => String c line :: rest
  end.

(** The lines that iterating over a file opened in text mode yields: a
    line ends after a line feed, a carriage return or the pair of them,
    each of which is handed over as one line feed; a last line without a
    line ending is handed over as it is. *)
Fixpoint readlines (content : string) : list string :=
  match content with
  | EmptyString => []
  | String c rest =>
      if (c =? LF)%char then String LF EmptyString :: readlines rest
      else if (c =? CR)%char then
        match rest with
        | EmptyString => [String LF EmptyString]
        | String c' rest' =>
            if (c' =? LF)%char then String LF EmptyString :: readlines rest'
            else String LF EmptyString :: readlines rest
        end
      else cons_line c (readlines rest)
  end.

(** The same text with every line feed written as carriage return, line
    feed. *)
Fixpoint to_crlf (content : string) : string :=
  match content with
  | EmptyString => EmptyString
  | String c rest =>
      if (c =? LF)%char then String CR (String LF (to_crlf rest))
      else String c (to_crlf rest)
  end.

End Text.

(** Lines 123-128, [f] being the lines of the file: what [parse_ids]
    yields, in order. *)
Definition parse_ids (f : list string) : list string :=
  flat_map (fun line =>
              let s := Text.strip line in
              if negb (s =? "")%string && negb (Py.startswith s "#") then [s] else [])
           f.

(** Whether a string is empty or starts with a character that is not
    white space. *)
Definition starts_clean (s : string) : bool :=
  match s with
  | EmptyString => true
  | String c _ => negb (Text.isspace_char c)
  end.

(** Whether [parse_ids] yields something for this line. *)
Definition is_id_line (line : string) : bool :=
  negb (Text.strip line =? "")%string && negb (Py.startswith (Text.strip line) "#").

(** How the lines of a text change when a line feed is put at its end:
    not at all, by one more empty line, or by a line ending on the last
    line. *)
Inductive ends_alike : list string -> list string -> Prop :=
| alike_same (l : list string) : ends_alike l l
| alike_empty_line (l : list string) : ends_alike (l ++ [String Text.LF ""]) l
| alike_line_end (init : list string) (last : string) :
    ends_alike (init ++ [last ++ String Text.LF ""]) (init ++ [last]).

(** ** The session of a thread *)

(** What [_build_session] sets on the session it returns. *)
Record Session : Type := {
  pool_connections : Z;
  pool_maxsize : Z;
  adapter_retries : Z;
  mounted : list string;
  headers : list (string * string);
  session_proxies : list (string * string);
  request_timeout : Q
}.

(** [s.lower()] on the Latin-1 range *)
Definition lower_char (c : ascii) : ascii :=
  let n := nat_of_ascii c in
  if ((65 <=? n) && (n <=? 90) || (192 <=? n) && (n <=? 214)
      || (216 <=? n) && (n <=? 222))%nat
  then ascii_of_nat (n + 32) else c.

Fixpoint lower (s : string) : string :=
  match s with
  | EmptyString => EmptyString
  | String c s' => String (lower_char c) (lower s')
  end.

(** [d[k] = v] on a dict kept as the list of its entries, two keys being
    the same key when [norm] maps them to the same string: the entry of
    that key is replaced where it stands, or a new entry is added at the
    end. [norm] is [lower] for the headers of a session, which ignore
    case, and the identity for a plain dict. *)
Fixpoint update_entry (norm : string -> string) (d : list (string * string))
         (k v : string) : list (string * string) :=
  match d with
  | [] => [(k, v)]
  | (k', v') :: rest =>
      if (norm k' =? norm k)%string then (k, v) :: rest
      else (k', v') :: update_entry norm rest k v
  end.

(** [d.update(other)] *)
Definition dict_update (norm : string -> string) (d other : list (string * string))
  : list (string * string) :=
  fold_left (fun acc kv => update_entry norm acc (fst kv) (snd kv)) other d.

(** [d.get(k)] *)
Fixpoint lookup_entry (norm : string -> string) (d : list (string * string))
         (k : string) : option string :=
  match d with
  | [] => None
  | (k', v) :: rest =>
      if (norm k' =? norm k)%string then Some v else lookup_entry norm rest k
  end.

Section Sessions.

(** The headers and the proxies of a fresh [requests.Session()]. *)
Variable default_headers : list (string * string).
Variable default_proxies : list (string * string).

(** Lines 12-31 *)
Definition _build_session (token : string) (proxies : option (list (string * string)))
           (timeout : Q) (pool_size : Z) : Session :=
  {| pool_connections := pool_size;
     pool_maxsize := pool_size;
     adapter_retries := 0;
     mounted := ["https://"; "http://"];
     headers := dict_update lower default_headers
                  [("Authorization", "Bearer " ++ token);
                   ("Accept", "application/json");
                   ("User-Agent", "mp-orders-fetch/parallel-1.0")];
     session_proxies :=
       match proxies with
       | Some (entry :: more) => dict_update (fun k => k) default_proxies (entry :: more)
       | _ => default_proxies
       end;
     request_timeout := timeout |}.

(** Lines 33-39, the thread-local [_session_local.sess] being passed in
    and handed back. *)
Definition get_session (sess : option Session) (token : string)
           (proxies : option (list (string * string))) (timeout : Q) (pool_size : Z)
  : Session * option Session :=
  match sess with
  | Some cached => (cached, Some cached)
  | None =>
      let built := _build_session token proxies timeout pool_size in
      (built, Some built)
  end.

(** The arguments of one call of [get_session]. *)
Record session_args : Type := {
  arg_token : string;
  arg_proxies : option (list (string * string));
  arg_timeout : Q;
  arg_pool_size : Z
}.

(** The sessions that a thread gets from successive calls. *)
Fixpoint sessions (sess : option Session) (calls : list session_args) : list Session :=
  match calls with
  | [] => []
  | a :: rest =>
      let '(got, sess') :=
        get_session sess (arg_token a) (arg_proxies a) (arg_timeout a) (arg_pool_size a) in
      got :: sessions sess' rest
  end.

End Sessions.

(** ** What a worker does, counted *)

(** The events of a call that slept [sleeps] between its requests. *)
Definition trace_of (target : string) (sleeps : list Q) : list event :=
  flat_map (fun seconds => [Get target; Sleep seconds]) sleeps ++ [Get target].

(** The number of requests among the events. *)
Definition requests_in (events : list event) : nat :=
  length (filter (fun e => match e with Get _ => true | Sleep _ => false end) events).

(** ** [main], with what it prints *)

Module Cli.

(** The arguments that decide what [main] does. *)
Record Args : Type := {
  infile : list string;
  outfile_path : string;
  token : option string;
  retries : Z;
  workers : Z
}.

(** How [main] ends. *)
Inductive exit : Type :=
| Done
| SystemExit (msg : string)
| Uncaught (e : exn).

Record result : Type := {
  stdout : list string;
  file : option (list csv_line);
  count : nat;
  status : exit
}.

Definition str_nat (n : nat) : string := Py.str_int (Z.of_nat n).

(** Line 189 *)
Definition progress_line (done total : nat) (path : string) : string :=
  "[" ++ str_nat done ++ "/" ++ str_nat total ++ "] wrote rows to " ++ path.

(** Line 188 *)
Definition reports (done total : nat) : bool :=
  ((done mod 10 =? 0) || (done =? total))%nat.

(** Lines 181-189, with the progress lines. *)
Fixpoint write_rows (writerow : row -> option exn) (path : string) (total : nat)
         (completed : list completion)
         (written : list csv_line) (done : nat) (printed : list string)
  : list csv_line * nat * option exn * list string :=
  match completed with
  | [] => (written, done, None, printed)
  | Returned r :: rest =>
      match writerow r with
      | None =>
          let done' := S done in
          write_rows writerow path total rest (written ++ [DataRow r]) done'
                     (if reports done' total
                      then printed ++ [progress_line done' total path]
                      else printed)
      | Some e => (written, done, Some e, printed)
      end
  | Raised e :: _ => (written, done, Some e, printed)
  end.

(** Lines 143-191 *)
Definition main (args : Args) (writerow : row -> option exn)
           (network : nat -> Z -> attempt_result) (order : list nat)
  : result :=
  let tok := Text.strip (match token args with Some t => t | None => "" end) in
  if (tok =? "")%string then
    {| stdout := []; file := None; count := 0;
       status := SystemExit "Error: provide a token with --token or set MP_TOKEN." |}
  else
    let payment_ids := parse_ids (infile args) in
    let total := length payment_ids in
    if (total =? 0)%nat then
      {| stdout := ["No payment IDs found."]; file := None; count := 0; status := Done |}
    else if workers args <=? 0 then
      {| stdout := []; file := Some [Header fieldnames]; count := 0;
         status := Uncaught (ValueError "max_workers must be greater than 0") |}
    else
      let '(written, done, exc, printed) :=
        write_rows writerow (outfile_path args) total
                   (as_completed order (futures (retries args) network payment_ids))
                   [Header fieldnames] 0 [] in
      match exc with
      | Some e => {| stdout := printed; file := Some written; count := done;
                     status := Uncaught e |}
      | None =>
          {| stdout := printed ++ ["Done. Processed " ++ str_nat done
                                     ++ " payment IDs. Output: " ++ outfile_path args];
             file := Some written; count := done; status := Done |}
      end.

End Cli.

(** * Properties *)

(** ** The loop over the attempt numbers *)

Lemma range_nil (a b : Z) : b <= a -> range a b = [].
Proof.
  intros H. unfold range.
  replace (Z.to_nat (b - a)) with 0%nat by lia. reflexivity.
Qed.

Lemma range_cons (a b : Z) : a < b -> range a b = a :: range (a + 1) b.
Proof.
  intros H. unfold range.
  replace (Z.to_nat (b - a)) with (S (Z.to_nat (b - (a + 1)))) by lia.
  cbn [seq map]. f_equal; [lia|].
  rewrite <- seq_shift, map_map.
  apply map_ext. intros i. lia.
Qed.

(** How long the worker sleeps after a retryable response: the value of
    [Retry-After] when it is a non-empty string of decimal digits, the
    exponential delay when the header is missing or [isdigit] rejects it,
    and no sleep at all, but a [ValueError], when [isdigit] accepts a
    string that [float] does not. *)
Lemma sleep_s_cases (backoff : Q) (resp : response) (attempt : Z) :
  match retry_after_header resp with
  | None => sleep_s backoff resp attempt = inl (Qpower backoff attempt)
  | Some retry_after =>
      if Py.isdigit retry_after then
        if Py.all_chars Py.is_ascii_digit retry_after
        then sleep_s backoff resp attempt = inl (inject_Z (Py.decimal_value 0 retry_after))
        else exists msg, sleep_s backoff resp attempt = inr (ValueError msg)
      else sleep_s backoff resp attempt = inl (Qpower backoff attempt)
  end.
Proof.
  unfold sleep_s, Py.float_of_digits.
  destruct (retry_after_header resp) as [retry_after|]; [|reflexivity].
  destruct (Py.isdigit retry_after) eqn:D.
  - unfold Py.isdigit in D. apply andb_prop in D as [D _]. rewrite D. cbn.
    destruct (Py.all_chars Py.is_ascii_digit retry_after); [reflexivity|].
    eexists. reflexivity.
  - rewrite andb_false_r. reflexivity.
Qed.

Lemma sleep_s_raises (backoff : Q) (resp : response) (attempt : Z) (e : exn) :
  sleep_s backoff resp attempt = inr e -> exists msg, e = ValueError msg.
Proof.
  unfold sleep_s. intros H.
  destruct (retry_after_header resp) as [retry_after|]; [|discriminate].
  destruct (negb (retry_after =? "")%string && Py.isdigit retry_after); [|discriminate].
  destruct (Py.float_of_digits retry_after); [discriminate|].
  injection H as <-. eexists. reflexivity.
Qed.

Lemma body_exception_cases (resp : response) (e : exn) :
  body_exception resp = Some e ->
  (exists msg, e = ValueError msg) \/ (exists msg, e = OtherException msg).
Proof.
  unfold body_exception. intros H.
  destruct (Py.startswith (ct resp) "application/json"); [|discriminate].
  destruct (json resp); try discriminate; injection H as <-;
    [left|right]; eexists; reflexivity.
Qed.



Section LoopFacts.

Variable pid : string.
Variable max_retries : Z.
Variable backoff : Q.
Variable server : Z -> attempt_result.

Local Abbreviation body := (loop_body pid max_retries backoff).
Local Abbreviation from := (loop_from pid max_retries backoff server).

Lemma loop_from_step (attempt : Z) :
  attempt <= max_retries ->
  from attempt =
    match body attempt (server attempt) with
    | Continue seconds =>
        let '(events, exit) := from (attempt + 1) in
        (Get (url pid) :: Sleep seconds :: events, exit)
    | Return r => ([Get (url pid)], Finished (Returned r))
    | Raise e => ([Get (url pid)], Finished (Raised e))
    end.
Proof.
  intros H. unfold loop_from.
  rewrite (range_cons attempt (max_retries + 1)) by lia. reflexivity.
Qed.

Lemma loop_from_past (attempt : Z) :
  max_retries < attempt -> from attempt = ([], FellThrough).
Proof.
  intros H. unfold loop_from. rewrite range_nil by lia. reflexivity.
Qed.

Lemma fetch_payment_loop_from :
  fetch_payment pid max_retries backoff server =
    let '(events, exit) := from 1 in
    match exit with
    | Finished c => (events, c)
    | FellThrough => (events, Returned (fallback_row pid))
    end.
Proof. reflexivity. Qed.


(** When the body asks for another attempt: one is left, the sleep was
    carried out, and the attempt met a request exception or a retryable
    status. *)
Lemma loop_body_continue (attempt : Z) (got : attempt_result) (seconds : Q) :
  body attempt got = Continue seconds ->
  attempt < max_retries
  /\ time_sleep seconds = None
  /\ ((exists resp, got = Responds resp /\ body_exception resp = None
                     /\ retryable (status_code resp) = true
                     /\ sleep_s backoff resp attempt = inl seconds)
      \/ (exists msg, got = Raises (RequestException msg)
                      /\ seconds = Qpower backoff attempt)).
Proof.
  unfold loop_body. intros H. destruct got as [resp|e].
  - destruct (body_exception resp) as [e|] eqn:B.
    + destruct (body_exception_cases resp e B) as [[msg ->]|[msg ->]]; discriminate.
    + destruct (retryable (status_code resp)) eqn:R; [|discriminate].
      destruct (attempt <? max_retries) eqn:A; [|discriminate]. cbn [andb] in H.
      destruct (sleep_s backoff resp attempt) as [s|e] eqn:S.
      * unfold sleep_then_continue in H. destruct (time_sleep s) eqn:T; [discriminate|].
        injection H as <-. apply Z.ltb_lt in A.
        split; [exact A|split; [exact T|]]. left. exists resp.
        repeat split; assumption.
      * destruct (sleep_s_raises backoff resp attempt e S) as [msg ->]. discriminate.
  - destruct e as [msg|msg| |msg]; try discriminate. cbn [on_exception] in H.
    destruct (attempt <? max_retries) eqn:A; [|discriminate].
    unfold sleep_then_continue in H.
    destruct (time_sleep (Qpower backoff attempt)) eqn:T; [discriminate|].
    injection H as <-. apply Z.ltb_lt in A.
    split; [exact A|split; [exact T|]]. right. exists msg. split; reflexivity.
Qed.

(** When the body returns a row: it is the row of a response that is not
    retried, or of a request exception on the last attempt. *)
Lemma loop_body_return (attempt : Z) (got : attempt_result) (r : row) :
  body attempt got = Return r ->
  (exists resp, got = Responds resp /\ body_exception resp = None
                /\ retryable (status_code resp) && (attempt <? max_retries) = false
                /\ r = terminal_row pid resp)
  \/ (exists msg, got = Raises (RequestException msg)
                  /\ (attempt <? max_retries) = false /\ r = failed_row pid msg).
Proof.
  unfold loop_body. intros H. destruct got as [resp|e].
  - destruct (body_exception resp) as [e|] eqn:B.
    + destruct (body_exception_cases resp e B) as [[msg ->]|[msg ->]]; discriminate.
    + destruct (retryable (status_code resp) && (attempt <? max_retries)) eqn:R.
      * destruct (sleep_s backoff resp attempt) as [s|e] eqn:S.
        -- unfold sleep_then_continue in H. destruct (time_sleep s); discriminate.
        -- destruct (sleep_s_raises backoff resp attempt e S) as [msg ->]. discriminate.
      * injection H as <-. left. exists resp. repeat split; assumption.
  - destruct e as [msg|msg| |msg]; try discriminate. cbn [on_exception] in H.
    destruct (attempt <? max_retries) eqn:A.
    + unfold sleep_then_continue in H.
      destruct (time_sleep (Qpower backoff attempt)); discriminate.
    + injection H as <-. right. exists msg. repeat split; assumption.
Qed.

(** The body asks for another attempt only when one is left. *)
Lemma continue_below_max (attempt : Z) (got : attempt_result) (seconds : Q) :
  body attempt got = Continue seconds -> attempt < max_retries.
Proof. intros H. apply (loop_body_continue attempt got seconds H). Qed.

Lemma terminal_row_payment_id (resp : response) : payment_id (terminal_row pid resp) = pid.
Proof.
  unfold terminal_row. destruct (read_body resp) as [data err].
  destruct (if is_2xx (status_code resp) then Py.as_dict data else None); reflexivity.
Qed.

(** Once entered, the loop ends inside its body. *)
Lemma loop_from_finishes (n : nat) :
  forall attempt, attempt <= max_retries -> Z.to_nat (max_retries - attempt) = n ->
                  exists c, snd (from attempt) = Finished c.
Proof.
  induction n as [|n IH]; intros attempt Hle Hn;
    rewrite (loop_from_step attempt Hle);
    destruct (body attempt (server attempt)) as [seconds|r|e] eqn:E;
    try (eexists; reflexivity);
    apply continue_below_max in E.
  - lia.
  - destruct (IH (attempt + 1)) as [c Hc]; [lia|lia|].
    destruct (from (attempt + 1)) as [events exit]. exists c. exact Hc.
Qed.

(** Every row that [fetch_payment] returns is the row of its identifier. *)
Lemma loop_from_payment_id (n : nat) :
  forall attempt r, Z.to_nat (max_retries + 1 - attempt) = n ->
                    snd (from attempt) = Finished (Returned r) -> payment_id r = pid.
Proof.
  induction n as [|n IH]; intros attempt r Hn Hr.
  - rewrite loop_from_past in Hr by lia. discriminate.
  - rewrite loop_from_step in Hr by lia.
    destruct (body attempt (server attempt)) as [seconds|r'|e] eqn:E.
    + apply (IH (attempt + 1)); [lia|].
      destruct (from (attempt + 1)) as [events exit]. exact Hr.
    + injection Hr as <-.
      destruct (loop_body_return attempt _ r' E)
        as [[resp [_ [_ [_ ->]]]]|[msg [_ [_ ->]]]].
      * apply terminal_row_payment_id.
      * reflexivity.
    + discriminate.
Qed.

End LoopFacts.

Lemma fetch_payment_payment_id (pid : string) (max_retries : Z) (backoff : Q)
      (server : Z -> attempt_result) (r : row) :
  snd (fetch_payment pid max_retries backoff server) = Returned r -> payment_id r = pid.
Proof.
  rewrite fetch_payment_loop_from. intros H.
  destruct (loop_from pid max_retries backoff server 1) as [events exit] eqn:E.
  destruct exit as [c|].
  - apply (loop_from_payment_id pid max_retries backoff server
             (Z.to_nat (max_retries + 1 - 1)) 1 r eq_refl).
    rewrite E. cbn in *. congruence.
  - cbn in H. injection H as <-. reflexivity.
Qed.




(** ** Retrying *)

(** A retryable status on an attempt that is not the last one, with a
    body that was read, is retried after the sleep, unless computing the
    duration or sleeping raised. *)
Lemma retryable_response_step (pid : string) (max_retries : Z) (backoff : Q)
      (resp : response) (attempt : Z) :
  retryable (status_code resp) = true -> attempt < max_retries ->
  body_exception resp = None ->
  loop_body pid max_retries backoff attempt (Responds resp) =
    match sleep_s backoff resp attempt with
    | inl seconds =>
        match time_sleep seconds with
        | None => Continue seconds
        | Some e => Raise e
        end
    | inr e => Raise e
    end.
Proof.
  intros Hs Ha Hb. unfold loop_body. rewrite Hb, Hs.
  replace (attempt <? max_retries) with true by (symmetry; apply Z.ltb_lt; exact Ha).
  cbn [andb]. destruct (sleep_s backoff resp attempt) as [s|e] eqn:S; [reflexivity|].
  destruct (sleep_s_raises backoff resp attempt e S) as [msg ->]. reflexivity.
Qed.

(** C3, at a [Retry-After] that [str.isdigit] accepts and [float] rejects:
    a 429 response on attempt 1 of 3 whose [Retry-After] header is the
    superscript digit U+00B2 satisfies the test of line 71, [float] raises
    [ValueError], and the call ends there with that exception after a
    single GET: no sleep and no second attempt. *)
Theorem C3_superscript_retry_after_raises :
  let resp := Samples.rate_limited (Some Samples.superscript_two) in
  retryable (status_code resp) = true
  /\ 1 < 3
  /\ Py.isdigit Samples.superscript_two = true
  /\ fetch_payment "77" 3 (12 # 10) (fun _ => Responds resp) =
       ([Get (url "77")],
        Raised (ValueError ("could not convert string to float: "
                              ++ Py.repr_str Samples.superscript_two))).
Proof. cbv zeta. repeat split; vm_compute; reflexivity. Qed.




(** ** The fallback after the loop *)

(** C9, as stated, fails when [max_retries] is 0: [range(1, 1)] is empty,
    the loop issues no request and falls through, and the row after the
    loop is what [fetch_payment] returns. *)
Lemma C9_fallback_reached_counterexample :
  loop_from "77" 0 (12 # 10) (fun _ => Responds Samples.paid) 1 = ([], FellThrough)
  /\ fetch_payment "77" 0 (12 # 10) (fun _ => Responds Samples.paid) =
       ([], Returned {| payment_id := "77"; order_id := ""; external_reference := "";
                        http_status := 0; error := "Exhausted retries" |}).
Proof. split; reflexivity. Qed.

(** C9, amended: the loop falls through to the fallback exactly when
    [max_retries] is below 1, and then no request was issued and the
    fallback row is returned; with [max_retries] at least 1 the call ends
    inside the loop, by a [return] or by an exception that is not caught. *)
Theorem C9_fallback_iff_no_attempts (pid : string) (max_retries : Z) (backoff : Q)
        (server : Z -> attempt_result) :
  (snd (loop_from pid max_retries backoff server 1) = FellThrough <-> max_retries <= 0)
  /\ (snd (loop_from pid max_retries backoff server 1) = FellThrough ->
      fetch_payment pid max_retries backoff server = ([], Returned (fallback_row pid)))
  /\ (1 <= max_retries ->
      exists c, snd (loop_from pid max_retries backoff server 1) = Finished c
                /\ snd (fetch_payment pid max_retries backoff server) = c).
Proof.
  assert (Hin : 1 <= max_retries ->
                exists c, snd (loop_from pid max_retries backoff server 1) = Finished c).
  { intros H. apply (loop_from_finishes pid max_retries backoff server
                       (Z.to_nat (max_retries - 1)) 1 H eq_refl). }
  assert (Hout : max_retries <= 0 ->
                 loop_from pid max_retries backoff server 1 = ([], FellThrough)).
  { intros H. apply loop_from_past. lia. }
  split; [split|split].
  - intros H. destruct (Z_le_gt_dec max_retries 0) as [Hle|Hgt]; [exact Hle|].
    destruct Hin as [c Hc]; [lia|]. congruence.
  - intros H. rewrite Hout by exact H. reflexivity.
  - intros H. destruct (Z_le_gt_dec max_retries 0) as [Hle|Hgt].
    + rewrite fetch_payment_loop_from, Hout by exact Hle. reflexivity.
    + destruct Hin as [c Hc]; [lia|]. congruence.
  - intros H. destruct (Hin H) as [c Hc]. exists c. split; [exact Hc|].
    rewrite fetch_payment_loop_from.
    destruct (loop_from pid max_retries backoff server 1) as [events exit].
    cbn in Hc. subst exit. reflexivity.
Qed.

(** ** Exceptions that are not request exceptions *)


Lemma write_rows_all (writerow : row -> option exn) (rows : list row) :
  (forall r, In r rows -> writerow r = None) ->
  forall written count,
    write_rows writerow (map Returned rows) written count =
      ((written ++ map DataRow rows)%list, (count + length rows)%nat, None).
Proof.
  induction rows as [|r rows IH]; intros Hw written count; cbn.
  - rewrite app_nil_r, Nat.add_0_r. reflexivity.
  - rewrite (Hw r (or_introl eq_refl)), IH, <- app_assoc.
    + cbn. repeat f_equal. lia.
    + intros r' Hr'. apply Hw. right. exact Hr'.
Qed.




(** ** One row per identifier *)

Lemma as_completed_seq (A : Type) (fs pre : list A) :
  flat_map (fun i => match nth_error (pre ++ fs) i with Some f => [f] | None => [] end)
           (seq (length pre) (length fs)) = fs.
Proof.
  revert pre. induction fs as [|f fs IH]; intros pre; [reflexivity|].
  cbn [length seq flat_map].
  rewrite nth_error_app2, Nat.sub_diag by lia. cbn [nth_error app]. f_equal.
  specialize (IH (pre ++ [f])%list).
  rewrite <- app_assoc, length_app, Nat.add_1_r in IH. exact IH.
Qed.

(** Whatever the completion order, [as_completed] yields every future
    once. *)
Lemma as_completed_permutation (order : list nat) (fs : list completion) :
  Permutation order (seq 0 (length fs)) -> Permutation (as_completed order fs) fs.
Proof.
  intros H. unfold as_completed.
  rewrite (Permutation_flat_map _ H).
  pose proof (as_completed_seq completion fs []) as E. cbn [app length] in E.
  rewrite E. apply Permutation_refl.
Qed.

Lemma combine_seq_snd (A : Type) (l : list A) :
  forall start, map snd (combine (seq start (length l)) l) = l.
Proof.
  induction l as [|x l IH]; intros start; [reflexivity|].
  cbn. f_equal. apply IH.
Qed.

Lemma combine_seq_in (A : Type) (l : list A) :
  forall start i x, In (i, x) (combine (seq start (length l)) l) ->
                    nth_error l (i - start) = Some x /\ (start <= i)%nat.
Proof.
  induction l as [|y l IH]; intros start i x H; [destruct H|].
  cbn in H. destruct H as [H|H].
  - injection H as <- <-. rewrite Nat.sub_diag. split; [reflexivity|lia].
  - apply IH in H as [H Hle].
    replace (i - start)%nat with (S (i - S start)) by lia. split; [exact H|lia].
Qed.

Lemma all_returned (cs : list completion) :
  Forall (fun c => exists r, c = Returned r) cs -> exists rows, cs = map Returned rows.
Proof.
  induction 1 as [|c cs [r ->] _ [rows ->]].
  - exists []. reflexivity.
  - exists (r :: rows). reflexivity.
Qed.

Lemma data_rows_written (rows : list row) :
  data_rows (Header fieldnames :: map DataRow rows) = rows.
Proof.
  unfold data_rows. cbn [flat_map app].
  induction rows as [|r rows IH]; [reflexivity|]. cbn. f_equal. exact IH.
Qed.

(** The identifier whose row a future holds. *)
Lemma futures_payment_ids (retries : Z) (network : nat -> Z -> attempt_result)
      (payment_ids : list string) (rows : list row) :
  Permutation (map Returned rows) (futures retries network payment_ids) ->
  Permutation (map payment_id rows) payment_ids.
Proof.
  intros H.
  assert (Hall : Forall (fun c => exists r, c = Returned r)
                        (futures retries network payment_ids)).
  { apply (Permutation_Forall H). apply Forall_forall. intros c Hc.
    apply in_map_iff in Hc as [r [<- _]]. exists r. reflexivity. }
  pose (pid_of := fun c => match c with Returned r => payment_id r | Raised _ => "" end).
  apply (Permutation_trans (l' := map pid_of (futures retries network payment_ids))).
  { replace (map payment_id rows) with (map pid_of (map Returned rows))
      by apply map_map.
    apply Permutation_map. exact H. }
  replace (map pid_of (futures retries network payment_ids)) with payment_ids;
    [apply Permutation_refl|]. symmetry. clear H rows.
  unfold futures in *. rewrite Forall_map, Forall_forall in Hall. rewrite map_map.
  transitivity (map snd (combine (seq 0 (length payment_ids)) payment_ids));
    [|apply combine_seq_snd].
  apply map_ext_in. intros [i pid] Hin.
  destruct (Hall _ Hin) as [r Hr]. cbn [fst snd] in *. rewrite Hr.
  apply (fetch_payment_payment_id _ _ _ _ _ Hr).
Qed.

(** C1, as stated, fails in three ways. Of two identifiers, the first is
    answered on its first attempt with a 429 whose [Retry-After] is the
    superscript digit U+00B2, so that its task ends with [ValueError]:
    whichever of the two futures completes first, the file receives fewer
    than two rows, and none for the first identifier. With a number of
    workers of 0, [ThreadPoolExecutor] raises after the header is written
    and the file receives no row, though every task would return one.
    And when [writer.writerow] raises on the row of the first identifier,
    that row is missing, though both tasks returned. *)
Lemma C1_one_row_per_identifier_counterexample :
  let network := fun (i : nat) (_ : Z) =>
                   if (i =? 0)%nat
                   then Responds (Samples.rate_limited (Some Samples.superscript_two))
                   else Responds Samples.paid in
  let answers := fun (_ : nat) (_ : Z) => Responds Samples.paid in
  Permutation [0; 1]%nat (seq 0 (length ["a"; "b"]))
  /\ Permutation [1; 0]%nat (seq 0 (length ["a"; "b"]))
  /\ map payment_id (sink (main 5 3 Samples.writes_all network ["a"; "b"] [0; 1]%nat)) = []
  /\ map payment_id (sink (main 5 3 Samples.writes_all network ["a"; "b"] [1; 0]%nat))
     = ["b"]
  /\ map payment_id (sink (main 0 3 Samples.writes_all answers ["a"; "b"] [0; 1]%nat)) = []
  /\ map payment_id (sink (main 5 3 Samples.cannot_encode_a answers ["a"; "b"] [1; 0]%nat))
     = ["b"].
Proof.
  cbv zeta. split; [apply Permutation_refl|split; [apply perm_swap|]].
  repeat split; vm_compute; reflexivity.
Qed.

(** C1, amended: when the number of workers is positive, no worker task
    ends with an exception and [writer.writerow] raises on none of the
    rows, then for every list of N identifiers and every completion order
    of the N futures, the file receives exactly N rows, which are the rows
    that the N tasks returned, each once, and whose identifiers are the
    input identifiers, each as often as it was given; [processed] ends at
    N and no exception leaves [main]. The number of attempts of a task
    plays no part. *)
Theorem C1_one_row_per_identifier (workers retries : Z) (writerow : row -> option exn)
        (network : nat -> Z -> attempt_result)
        (payment_ids : list string) (order : list nat) :
  0 < workers ->
  Permutation order (seq 0 (length payment_ids)) ->
  (forall i pid, nth_error payment_ids i = Some pid ->
                 exists r, snd (fetch_payment pid retries (12 # 10) (network i)) = Returned r) ->
  (forall r, In (Returned r) (futures retries network payment_ids) -> writerow r = None) ->
  let run := main workers retries writerow network payment_ids order in
  length (sink run) = length payment_ids
  /\ Permutation (map Returned (sink run)) (futures retries network payment_ids)
  /\ Permutation (map payment_id (sink run)) payment_ids
  /\ processed run = length payment_ids
  /\ uncaught run = None.
Proof.
  intros Hworkers Hperm Hret Hwrite run.
  assert (Hlen : length (futures retries network payment_ids) = length payment_ids).
  { unfold futures. rewrite length_map, length_combine, length_seq. lia. }
  assert (Hall : Forall (fun c => exists r, c = Returned r)
                        (futures retries network payment_ids)).
  { unfold futures. rewrite Forall_map, Forall_forall. intros [i pid] Hin.
    apply combine_seq_in in Hin as [Hin _]. cbn [fst snd].
    rewrite Nat.sub_0_r in Hin. apply (Hret _ _ Hin). }
  assert (Hp : Permutation (as_completed order (futures retries network payment_ids))
                           (futures retries network payment_ids)).
  { apply as_completed_permutation. rewrite Hlen. exact Hperm. }
  destruct (all_returned _ (Permutation_Forall (Permutation_sym Hp) Hall)) as [rows Hrows].
  assert (Hn : length rows = length payment_ids).
  { rewrite <- Hlen, <- (Permutation_length Hp), Hrows, length_map. reflexivity. }
  assert (Hw : forall r, In r rows -> writerow r = None).
  { intros r Hr. apply Hwrite. apply (Permutation_in _ Hp). rewrite Hrows.
    apply in_map. exact Hr. }
  subst run. unfold main.
  destruct (length payment_ids =? 0)%nat eqn:E.
  - apply Nat.eqb_eq in E. destruct payment_ids; [|discriminate].
    cbn. repeat split; apply Permutation_refl.
  - replace (workers <=? 0) with false by (symmetry; apply Z.leb_gt; exact Hworkers).
    rewrite Hrows, (write_rows_all writerow rows Hw). unfold sink.
    cbn [outfile processed uncaught app].
    rewrite data_rows_written. rewrite Hrows in Hp.
    repeat split; try assumption.
    apply (futures_payment_ids retries network). exact Hp.
Qed.

Lemma C1_one_row_per_identifier_witness :
  let run := main 5 3 Samples.writes_all (fun _ _ => Responds Samples.paid)
                  ["a"; "b"] [1; 0]%nat in
  length (sink run) = length ["a"; "b"]
  /\ Permutation (map Returned (sink run))
                 (futures 3 (fun _ _ => Responds Samples.paid) ["a"; "b"])
  /\ Permutation (map payment_id (sink run)) ["a"; "b"]
  /\ processed run = length ["a"; "b"]
  /\ uncaught run = None.
Proof.
  apply (C1_one_row_per_identifier 5 3 Samples.writes_all
           (fun _ _ => Responds Samples.paid) ["a"; "b"] [1; 0]%nat).
  - lia.
  - apply perm_swap.
  - intros i pid _. eexists. reflexivity.
  - intros r _. reflexivity.
Defined.

(** ** Responses that end the call *)

Lemma is_2xx_not_retryable (status : Z) : is_2xx status = true -> retryable status = false.
Proof.
  unfold is_2xx, retryable. intros H. apply andb_prop in H as [Hlo Hhi].
  apply Z.leb_le in Hlo. apply Z.ltb_lt in Hhi. cbn [existsb].
  repeat (apply orb_false_intro; [apply Z.eqb_neq; lia|]). reflexivity.
Qed.

(** A response whose body was read and that is not retried ends the call
    at once, without a sleep. *)
Lemma loop_from_terminal (pid : string) (max_retries : Z) (backoff : Q)
      (server : Z -> attempt_result) (attempt : Z) (resp : response) :
  attempt <= max_retries ->
  server attempt = Responds resp ->
  body_exception resp = None ->
  retryable (status_code resp) && (attempt <? max_retries) = false ->
  loop_from pid max_retries backoff server attempt =
    ([Get (url pid)], Finished (Returned (terminal_row pid resp))).
Proof.
  intros Hle Hs Hb Hr. rewrite loop_from_step by exact Hle.
  rewrite Hs. unfold loop_body. rewrite Hb, Hr. reflexivity.
Qed.

(** [resp.json()] is not called for a content type that is not JSON, and
    raises nothing that leaves the inner [try] when it decodes the body
    or raises [JSONDecodeError]. *)
Lemma body_exception_none (resp : response) :
  Py.startswith (ct resp) "application/json" = false
  \/ (exists v, json resp = Decoded v) \/ json resp = JSONDecodeError ->
  body_exception resp = None.
Proof.
  unfold body_exception. intros [H|[[v H]|H]]; rewrite H; [reflexivity| |];
    destruct (Py.startswith (ct resp) "application/json"); reflexivity.
Qed.

Lemma or_str_nonempty (err : option string) (default : string) :
  default <> "" -> Py.or_str err default <> "".
Proof.
  intros H. unfold Py.or_str. destruct err as [e|]; [|exact H].
  destruct (String.eqb_spec e ""); assumption.
Qed.

Lemma generic_error_nonempty (status : Z) : "HTTP " ++ Py.str_int status <> "".
Proof. discriminate. Qed.

(** ** The success path *)

(** C4, as stated, fails twice over. A 200 response whose JSON body is the
    mapping [{"order": {"id": 0}, "external_reference": null}] gives an
    empty [order_id] and an empty [external_reference], not the
    stringified values; and the mapping of the example, sent with the
    content type [text/plain], is never decoded and gives a row whose
    [error] is "HTTP 200". *)
Lemma C4_success_extraction_counterexample :
  (exists r, snd (fetch_payment "77" 3 (12 # 10) (fun _ => Responds Samples.paid_falsy))
             = Returned r
             /\ order_id r = "" /\ Py.str (Py.PyInt 0) = "0"
             /\ external_reference r = "" /\ Py.str Py.PyNone = "None")
  /\ (exists r, snd (fetch_payment "77" 3 (12 # 10) (fun _ => Responds Samples.paid_as_text))
                = Returned r
                /\ is_2xx (http_status r) = true
                /\ json Samples.paid_as_text = json Samples.paid
                /\ error r = "HTTP 200").
Proof.
  split; eexists; (split; [reflexivity|]); repeat split; reflexivity.
Qed.

Lemma terminal_row_success (pid : string) (resp : response)
      (entries : list (string * Py.pyval)) :
  is_2xx (status_code resp) = true ->
  Py.startswith (ct resp) "application/json" = true ->
  json resp = Decoded (Py.PyDict entries) ->
  terminal_row pid resp =
    {| payment_id := pid;
       order_id :=
         match Py.lookup entries "order" with
         | Some (Py.PyDict order) =>
             match Py.lookup order "id" with
             | Some id => if Py.truthy id then Py.str id else ""
             | None => ""
             end
         | _ => ""
         end;
       external_reference :=
         match Py.lookup entries "external_reference" with
         | Some ref => if Py.truthy ref then Py.str ref else ""
         | None => ""
         end;
       http_status := status_code resp;
       error := "" |}.
Proof.
  intros H2 Hct Hj. unfold terminal_row, read_body. rewrite Hct, Hj, H2.
  cbn [Py.as_dict]. f_equal.
  - unfold Py.get. destruct (Py.lookup entries "order") as [[| | | | |? |order]|];
      try reflexivity.
    cbn [Py.as_dict]. unfold Py.or_.
    destruct (Py.lookup order "id") as [id|]; [|reflexivity].
    destruct (Py.truthy id); reflexivity.
  - unfold Py.get, Py.or_.
    destruct (Py.lookup entries "external_reference") as [ref|]; [|reflexivity].
    destruct (Py.truthy ref); reflexivity.
Qed.

(** C4, amended: a 2xx response whose [Content-Type] starts with
    [application/json] and whose body decodes to a mapping ends the call
    at once with a row whose [error] is empty, whose [order_id] is the
    stringified "id" of the nested "order" mapping when that mapping
    exists and its "id" is present and truthy (empty otherwise), and whose
    [external_reference] is the stringified top-level field when present
    and truthy (empty otherwise). *)
Theorem C4_success_extraction (pid : string) (max_retries : Z) (backoff : Q)
        (server : Z -> attempt_result) (attempt : Z) (resp : response)
        (entries : list (string * Py.pyval)) :
  attempt <= max_retries ->
  server attempt = Responds resp ->
  is_2xx (status_code resp) = true ->
  Py.startswith (ct resp) "application/json" = true ->
  json resp = Decoded (Py.PyDict entries) ->
  exists r,
    loop_from pid max_retries backoff server attempt =
      ([Get (url pid)], Finished (Returned r))
    /\ payment_id r = pid
    /\ http_status r = status_code resp
    /\ error r = ""
    /\ order_id r =
         match Py.lookup entries "order" with
         | Some (Py.PyDict order) =>
             match Py.lookup order "id" with
             | Some id => if Py.truthy id then Py.str id else ""
             | None => ""
             end
         | _ => ""
         end
    /\ external_reference r =
         match Py.lookup entries "external_reference" with
         | Some ref => if Py.truthy ref then Py.str ref else ""
         | None => ""
         end.
Proof.
  intros Hle Hs H2 Hct Hj. exists (terminal_row pid resp). split.
  - apply loop_from_terminal; try assumption.
    + apply body_exception_none. right. left. eexists. exact Hj.
    + rewrite (is_2xx_not_retryable _ H2). reflexivity.
  - rewrite (terminal_row_success pid resp entries H2 Hct Hj).
    repeat split; reflexivity.
Qed.

(** The example of the spec:
    [{"order": {"id": "123"}, "external_reference": "ref-9"}]. *)
Lemma C4_success_extraction_witness :
  exists r,
    loop_from "77" 3 (12 # 10) (fun _ => Responds Samples.paid) 1 =
      ([Get (url "77")], Finished (Returned r))
    /\ order_id r = "123" /\ external_reference r = "ref-9" /\ error r = "".
Proof.
  destruct (C4_success_extraction "77" 3 (12 # 10) (fun _ => Responds Samples.paid) 1
              Samples.paid
              [("order", Py.PyDict [("id", Py.PyStr "123")]);
               ("external_reference", Py.PyStr "ref-9")]
              ltac:(lia) eq_refl eq_refl eq_refl eq_refl)
    as [r [Hrun [_ [_ [Herr [Hord Href]]]]]].
  exists r. repeat split; assumption.
Defined.

(** C10: on the success path a nested "id" or a top-level
    "external_reference" that is present with the value [None], [0],
    [False] or the empty string gives an empty field in the row, where
    [str] of the first three would be "None", "0" and "False". *)
Theorem C10_falsy_fields_empty (pid : string) (max_retries : Z) (backoff : Q)
        (server : Z -> attempt_result) (attempt : Z) (resp : response)
        (entries : list (string * Py.pyval)) (v : Py.pyval) :
  attempt <= max_retries ->
  server attempt = Responds resp ->
  is_2xx (status_code resp) = true ->
  Py.startswith (ct resp) "application/json" = true ->
  json resp = Decoded (Py.PyDict entries) ->
  In v [Py.PyNone; Py.PyInt 0; Py.PyBool false; Py.PyStr ""] ->
  exists r,
    loop_from pid max_retries backoff server attempt =
      ([Get (url pid)], Finished (Returned r))
    /\ error r = ""
    /\ (forall order, Py.lookup entries "order" = Some (Py.PyDict order) ->
                      Py.lookup order "id" = Some v -> order_id r = "")
    /\ (Py.lookup entries "external_reference" = Some v -> external_reference r = "")
    /\ map Py.str [Py.PyNone; Py.PyInt 0; Py.PyBool false] = ["None"; "0"; "False"].
Proof.
  intros Hle Hs H2 Hct Hj Hv.
  assert (Hf : Py.truthy v = false).
  { cbn in Hv. destruct Hv as [<-|[<-|[<-|[<-|[]]]]]; reflexivity. }
  exists (terminal_row pid resp). split.
  - apply loop_from_terminal; try assumption.
    + apply body_exception_none. right. left. eexists. exact Hj.
    + rewrite (is_2xx_not_retryable _ H2). reflexivity.
  - rewrite (terminal_row_success pid resp entries H2 Hct Hj). cbn [error order_id
      external_reference]. split; [reflexivity|]. split; [|split; [|reflexivity]].
    + intros order Ho Hi. rewrite Ho, Hi, Hf. reflexivity.
    + intros He. rewrite He, Hf. reflexivity.
Qed.

Lemma C10_falsy_fields_empty_witness :
  exists r,
    loop_from "77" 3 (12 # 10) (fun _ => Responds Samples.paid_falsy) 1 =
      ([Get (url "77")], Finished (Returned r))
    /\ order_id r = "".
Proof.
  destruct (C10_falsy_fields_empty "77" 3 (12 # 10) (fun _ => Responds Samples.paid_falsy) 1
              Samples.paid_falsy
              [("order", Py.PyDict [("id", Py.PyInt 0)]);
               ("external_reference", Py.PyNone)]
              (Py.PyInt 0)
              ltac:(lia) eq_refl eq_refl eq_refl eq_refl
              ltac:(right; left; reflexivity))
    as [r [Hrun [_ [Hord _]]]].
  exists r. split; [exact Hrun|].
  apply (Hord [("id", Py.PyInt 0)]); reflexivity.
Defined.

(** ** Responses that end the call with an error *)

(** The row for a response that is not on the success path: empty order
    and reference, and an error taken, in this order, from a truthy
    "message", "error" or "cause" of a decoded mapping, from the decoding
    failure or the first 500 characters of the text of a response that is
    neither JSON nor 2xx, and at last from the status. *)
Lemma terminal_row_failure (pid : string) (resp : response) :
  (is_2xx (status_code resp) = false
   \/ Py.startswith (ct resp) "application/json" = false
   \/ forall entries, json resp <> Decoded (Py.PyDict entries)) ->
  let generic := "HTTP " ++ Py.str_int (status_code resp) in
  terminal_row pid resp =
    {| payment_id := pid;
       order_id := "";
       external_reference := "";
       http_status := status_code resp;
       error :=
         if Py.startswith (ct resp) "application/json" then
           match json resp with
           | Decoded (Py.PyDict entries) =>
               if Py.truthy (Py.get entries "message")
               then Py.or_str (Some (Py.str (Py.get entries "message"))) generic
               else if Py.truthy (Py.get entries "error")
               then Py.or_str (Some (Py.str (Py.get entries "error"))) generic
               else if Py.truthy (Py.get entries "cause")
               then Py.or_str (Some (Py.str (Py.get entries "cause"))) generic
               else generic
           | Decoded _ => generic
           | JSONDecodeError => "Invalid JSON in response"
           | JsonValueError _ | JsonOtherException _ => generic
           end
         else if is_2xx (status_code resp) then generic
         else Py.or_str (Some (Py.slice_to 500 (text resp))) generic |}.
Proof.
  intros H generic. unfold terminal_row, read_body.
  destruct (Py.startswith (ct resp) "application/json") eqn:Hct.
  - destruct (json resp) as [v| |msg|msg] eqn:Hj.
    + destruct (is_2xx (status_code resp)) eqn:H2.
      * destruct v; try reflexivity.
        destruct H as [H|[H|H]]; try discriminate.
        exfalso. apply (H entries). reflexivity.
      * destruct v; try reflexivity. cbn [Py.as_dict]. unfold Py.or_.
        destruct (Py.truthy (Py.get entries "message")) eqn:E1; cbv iota;
          [rewrite E1; reflexivity|].
        destruct (Py.truthy (Py.get entries "error")) eqn:E2; cbv iota;
          [rewrite E2; reflexivity|].
        destruct (Py.truthy (Py.get entries "cause")) eqn:E3; reflexivity.
    + destruct (is_2xx (status_code resp)); reflexivity.
    + destruct (is_2xx (status_code resp)); reflexivity.
    + destruct (is_2xx (status_code resp)); reflexivity.
  - destruct (is_2xx (status_code resp)); reflexivity.
Qed.

(** A response that is neither 2xx nor retried, and whose body was read,
    ends the call with the row of [terminal_row_failure], whose error is
    never empty. *)
Lemma failure_response_ends_call (pid : string) (max_retries : Z) (backoff : Q)
      (server : Z -> attempt_result) (attempt : Z) (resp : response) :
  attempt <= max_retries ->
  server attempt = Responds resp ->
  is_2xx (status_code resp) = false ->
  retryable (status_code resp) && (attempt <? max_retries) = false ->
  body_exception resp = None ->
  let generic := "HTTP " ++ Py.str_int (status_code resp) in
  exists r,
    loop_from pid max_retries backoff server attempt =
      ([Get (url pid)], Finished (Returned r))
    /\ payment_id r = pid /\ order_id r = "" /\ external_reference r = ""
    /\ http_status r = status_code resp
    /\ error r <> ""
    /\ (Py.startswith (ct resp) "application/json" = false ->
        error r = Py.or_str (Some (Py.slice_to 500 (text resp))) generic)
    /\ (Py.startswith (ct resp) "application/json" = true ->
        json resp = JSONDecodeError -> error r = "Invalid JSON in response")
    /\ (forall v,
          Py.startswith (ct resp) "application/json" = true ->
          json resp = Decoded v ->
          error r =
           match v with
           | Py.PyDict entries =>
               if Py.truthy (Py.get entries "message")
               then Py.or_str (Some (Py.str (Py.get entries "message"))) generic
               else if Py.truthy (Py.get entries "error")
               then Py.or_str (Some (Py.str (Py.get entries "error"))) generic
               else if Py.truthy (Py.get entries "cause")
               then Py.or_str (Some (Py.str (Py.get entries "cause"))) generic
               else generic
           | _ => generic
           end).
Proof.
  intros Hle Hs H2 Hr Hb generic. exists (terminal_row pid resp). split.
  - apply loop_from_terminal; assumption.
  - pose proof (terminal_row_failure pid resp (or_introl H2)) as E.
    cbv zeta in E. rewrite H2 in E.
    assert (Hne : error (terminal_row pid resp) <> "").
    { unfold terminal_row. destruct (read_body resp) as [data err]. rewrite H2.
      cbn [error]. apply or_str_nonempty. discriminate. }
    rewrite E in Hne |- *. cbn [payment_id order_id external_reference http_status error]
      in Hne |- *.
    repeat (split; [first [reflexivity|exact Hne]|]). split; [|split].
    + intros Hct. rewrite Hct. reflexivity.
    + intros Hct Hj. rewrite Hct, Hj. reflexivity.
    + intros v Hct Hj. rewrite Hct, Hj. destruct v; reflexivity.
Qed.

(** C5, as stated, fails: a 404 with the content type [text/plain] and
    the text "Not Found" has no structured body, and its row carries that
    text as the error, not "HTTP 404". *)
Lemma C5_terminal_error_counterexample :
  is_2xx (status_code Samples.not_found) = false
  /\ retryable (status_code Samples.not_found) = false
  /\ json Samples.not_found = JSONDecodeError
  /\ exists r, fetch_payment "77" 3 (12 # 10) (fun _ => Responds Samples.not_found) =
                 ([Get (url "77")], Returned r)
               /\ error r = "Not Found"
               /\ error r <> "HTTP " ++ Py.str_int (status_code Samples.not_found).
Proof.
  repeat split. eexists. split; [reflexivity|]. split; [reflexivity|discriminate].
Qed.

(** C5, amended: a response whose status is neither 2xx nor retryable,
    and on whose body [resp.json()], if it is called, decodes or raises
    [JSONDecodeError], ends the call at once, without a sleep, with empty
    order and reference and a non-empty error: the first truthy of the
    "message", "error" and "cause" fields when the content type is JSON
    and the body decodes to a mapping; "Invalid JSON in response" when the
    content type is JSON and [resp.json()] raises [JSONDecodeError]; the
    first 500 characters of the text when the content type is not JSON
    and the text is not empty; and "HTTP {status}" in every other case. *)
Theorem C5_terminal_error (pid : string) (max_retries : Z) (backoff : Q)
        (server : Z -> attempt_result) (attempt : Z) (resp : response) :
  attempt <= max_retries ->
  server attempt = Responds resp ->
  is_2xx (status_code resp) = false ->
  retryable (status_code resp) = false ->
  body_exception resp = None ->
  let generic := "HTTP " ++ Py.str_int (status_code resp) in
  exists r,
    loop_from pid max_retries backoff server attempt =
      ([Get (url pid)], Finished (Returned r))
    /\ payment_id r = pid /\ order_id r = "" /\ external_reference r = ""
    /\ http_status r = status_code resp
    /\ error r <> ""
    /\ (Py.startswith (ct resp) "application/json" = false ->
        error r = Py.or_str (Some (Py.slice_to 500 (text resp))) generic)
    /\ (Py.startswith (ct resp) "application/json" = true ->
        json resp = JSONDecodeError -> error r = "Invalid JSON in response")
    /\ (forall v,
          Py.startswith (ct resp) "application/json" = true ->
          json resp = Decoded v ->
          error r =
           match v with
           | Py.PyDict entries =>
               if Py.truthy (Py.get entries "message")
               then Py.or_str (Some (Py.str (Py.get entries "message"))) generic
               else if Py.truthy (Py.get entries "error")
               then Py.or_str (Some (Py.str (Py.get entries "error"))) generic
               else if Py.truthy (Py.get entries "cause")
               then Py.or_str (Some (Py.str (Py.get entries "cause"))) generic
               else generic
           | _ => generic
           end).
Proof.
  intros Hle Hs H2 Hr Hb.
  apply failure_response_ends_call; try assumption. rewrite Hr. reflexivity.
Qed.

Lemma C5_terminal_error_witness :
  exists r,
    loop_from "77" 3 (12 # 10) (fun _ => Responds Samples.not_found) 1 =
      ([Get (url "77")], Finished (Returned r))
    /\ error r = "Not Found".
Proof.
  destruct (C5_terminal_error "77" 3 (12 # 10) (fun _ => Responds Samples.not_found) 1
              Samples.not_found ltac:(lia) eq_refl eq_refl eq_refl eq_refl)
    as [r [Hrun [_ [_ [_ [_ [_ [Herr _]]]]]]]].
  exists r. split; [exact Hrun|]. rewrite (Herr eq_refl). reflexivity.
Defined.

(** C6, as stated, fails: a 500 on the last attempt whose JSON body is
    [{"message": "internal_error"}] gives a row whose error is that
    message, in which "500" does not occur. *)
Lemma C6_last_500_counterexample :
  status_code Samples.server_error = 500
  /\ exists r, loop_from "77" 3 (12 # 10) (fun _ => Responds Samples.server_error) 3 =
                 ([Get (url "77")], Finished (Returned r))
               /\ error r = "internal_error"
               /\ contains (error r) "500" = false.
Proof.
  split; [reflexivity|]. eexists. split; [reflexivity|]. split; reflexivity.
Qed.

(** C6, amended: a 500 on the attempt [max_retries], on whose body
    [resp.json()], if it is called, decodes or raises [JSONDecodeError],
    ends the call with a row whose [http_status] is 500, whose order and
    reference are empty and whose error is not empty. The error is the
    message that the body gives: the first truthy of the "message",
    "error" and "cause" fields of a decoded mapping, "Invalid JSON in
    response" when [resp.json()] raises [JSONDecodeError], the first 500
    characters of a text that is not declared as JSON and is not empty.
    It is "HTTP 500", which contains "500", when the body gives none. *)
Theorem C6_last_500 (pid : string) (max_retries : Z) (backoff : Q)
        (server : Z -> attempt_result) (attempt : Z) (resp : response) :
  attempt = max_retries ->
  server attempt = Responds resp ->
  status_code resp = 500 ->
  body_exception resp = None ->
  let generic := "HTTP 500" in
  contains generic "500" = true
  /\ exists r,
       loop_from pid max_retries backoff server attempt =
         ([Get (url pid)], Finished (Returned r))
       /\ http_status r = 500 /\ order_id r = "" /\ external_reference r = ""
       /\ error r <> ""
       /\ (Py.startswith (ct resp) "application/json" = false ->
           error r = Py.or_str (Some (Py.slice_to 500 (text resp))) generic)
       /\ (Py.startswith (ct resp) "application/json" = true ->
           json resp = JSONDecodeError -> error r = "Invalid JSON in response")
       /\ (forall v,
             Py.startswith (ct resp) "application/json" = true ->
             json resp = Decoded v ->
             error r =
           match v with
           | Py.PyDict entries =>
               if Py.truthy (Py.get entries "message")
               then Py.or_str (Some (Py.str (Py.get entries "message"))) generic
               else if Py.truthy (Py.get entries "error")
               then Py.or_str (Some (Py.str (Py.get entries "error"))) generic
               else if Py.truthy (Py.get entries "cause")
               then Py.or_str (Some (Py.str (Py.get entries "cause"))) generic
               else generic
           | _ => generic
           end).
Proof.
  intros Ha Hs H5 Hb generic. split; [reflexivity|].
  assert (Hlast : retryable (status_code resp) && (attempt <? max_retries) = false).
  { replace (attempt <? max_retries) with false by (symmetry; apply Z.ltb_ge; lia).
    apply andb_false_r. }
  assert (H2 : is_2xx (status_code resp) = false) by (rewrite H5; reflexivity).
  destruct (failure_response_ends_call pid max_retries backoff server attempt resp
              ltac:(lia) Hs H2 Hlast Hb)
    as [r [Hrun [_ [Ho [He [Hst [Hne [Htext [Hbad Hdec]]]]]]]]].
  rewrite H5 in Hst, Htext, Hdec.
  change ("HTTP " ++ Py.str_int 500) with "HTTP 500" in Htext, Hdec.
  exists r. repeat (split; [assumption|]). exact Hdec.
Qed.

Lemma C6_last_500_witness :
  exists r,
    loop_from "77" 3 (12 # 10) (fun _ => Responds (Samples.plain_response 500 "")) 3 =
      ([Get (url "77")], Finished (Returned r))
    /\ http_status r = 500 /\ error r = "HTTP 500".
Proof.
  destruct (C6_last_500 "77" 3 (12 # 10)
              (fun _ => Responds (Samples.plain_response 500 "")) 3
              (Samples.plain_response 500 "") eq_refl eq_refl eq_refl eq_refl)
    as [_ [r [Hrun [Hst [_ [_ [_ [Htext _]]]]]]]].
  exists r. repeat split; try assumption. rewrite (Htext eq_refl). reflexivity.
Defined.

(** ** A 2xx response without a decodable body *)

(** C8, as stated, fails on the text of the error: for a 200 whose body
    is an HTML page the error is "HTTP 200", and for a 200 declared as
    JSON whose body does not decode it is "Invalid JSON in response";
    neither is "invalid response body". *)
Lemma C8_undecodable_2xx_counterexample :
  (is_2xx (status_code Samples.html_page) = true
   /\ json Samples.html_page = JSONDecodeError
   /\ exists r, fetch_payment "77" 3 (12 # 10) (fun _ => Responds Samples.html_page) =
                  ([Get (url "77")], Returned r)
                /\ error r = "HTTP 200" /\ error r <> "invalid response body")
  /\ (is_2xx (status_code Samples.truncated_json) = true
      /\ json Samples.truncated_json = JSONDecodeError
      /\ exists r, fetch_payment "77" 3 (12 # 10)
                     (fun _ => Responds Samples.truncated_json) =
                     ([Get (url "77")], Returned r)
                   /\ error r = "Invalid JSON in response"
                   /\ error r <> "invalid response body").
Proof.
  split; (split; [reflexivity|]); (split; [reflexivity|]); eexists;
    (split; [reflexivity|]); (split; [reflexivity|discriminate]).
Qed.

(** C8, amended: a 2xx response whose body is not decoded, because its
    content type does not start with [application/json] or because
    [resp.json()] raises [JSONDecodeError], ends the call at once, without
    a sleep and without another attempt, with empty [order_id] and
    [external_reference] and a non-empty error, which is "Invalid JSON in
    response" when the content type starts with [application/json] and
    "HTTP {status}" otherwise. *)
Theorem C8_undecodable_2xx (pid : string) (max_retries : Z) (backoff : Q)
        (server : Z -> attempt_result) (attempt : Z) (resp : response) :
  attempt <= max_retries ->
  server attempt = Responds resp ->
  is_2xx (status_code resp) = true ->
  Py.startswith (ct resp) "application/json" = false \/ json resp = JSONDecodeError ->
  exists r,
    loop_from pid max_retries backoff server attempt =
      ([Get (url pid)], Finished (Returned r))
    /\ payment_id r = pid /\ http_status r = status_code resp
    /\ order_id r = "" /\ external_reference r = ""
    /\ error r <> ""
    /\ error r = if Py.startswith (ct resp) "application/json"
                 then "Invalid JSON in response"
                 else "HTTP " ++ Py.str_int (status_code resp).
Proof.
  intros Hle Hs H2 Hj. exists (terminal_row pid resp). split.
  - apply loop_from_terminal; try assumption.
    + apply body_exception_none. destruct Hj as [Hj|Hj]; [left|right; right]; exact Hj.
    + rewrite (is_2xx_not_retryable _ H2). reflexivity.
  - rewrite (terminal_row_failure pid resp).
    + cbv zeta. cbn [payment_id http_status order_id external_reference error].
      rewrite H2. destruct Hj as [Hj|Hj]; rewrite Hj.
      * repeat split; try reflexivity. discriminate.
      * repeat split; try reflexivity;
          destruct (Py.startswith (ct resp) "application/json"); try reflexivity;
          discriminate.
    + destruct Hj as [Hj|Hj]; [right; left; exact Hj|].
      right. right. intros entries. rewrite Hj. discriminate.
Qed.

Lemma C8_undecodable_2xx_witness :
  exists r,
    loop_from "77" 3 (12 # 10) (fun _ => Responds Samples.html_page) 1 =
      ([Get (url "77")], Finished (Returned r))
    /\ order_id r = "" /\ external_reference r = "" /\ error r = "HTTP 200".
Proof.
  destruct (C8_undecodable_2xx "77" 3 (12 # 10) (fun _ => Responds Samples.html_page) 1
              Samples.html_page ltac:(lia) eq_refl eq_refl (or_introl eq_refl))
    as [r [Hrun [_ [_ [Ho [He [_ Herr]]]]]]].
  exists r. repeat split; assumption.
Defined.

(** * Further properties *)

(** ** [strip] *)

Lemma lstrip_starts_clean (s : string) : starts_clean (Text.lstrip s) = true.
Proof.
  induction s as [|c s IH]; [reflexivity|]. cbn [Text.lstrip].
  destruct (Text.isspace_char c) eqn:E; [exact IH|]. cbn. rewrite E. reflexivity.
Qed.

Lemma lstrip_of_clean (s : string) : starts_clean s = true -> Text.lstrip s = s.
Proof.
  destruct s as [|c s]; [reflexivity|]. cbn. intros H.
  destruct (Text.isspace_char c); [discriminate|reflexivity].
Qed.

Lemma rstrip_starts_clean (s : string) :
  starts_clean s = true -> starts_clean (Text.rstrip s) = true.
Proof.
  destruct s as [|c s]; [reflexivity|]. cbn [starts_clean Text.rstrip]. intros H.
  destruct (Text.rstrip s); [|exact H].
  destruct (Text.isspace_char c) eqn:E; [reflexivity|]. cbn. rewrite E. reflexivity.
Qed.

Lemma rstrip_cons (c : ascii) (s : string) :
  Text.rstrip (String c s) =
    match Text.rstrip s with
    | EmptyString => if Text.isspace_char c then EmptyString else String c EmptyString
    | kept => String c kept
    end.
Proof. reflexivity. Qed.

Lemma rstrip_idempotent (s : string) : Text.rstrip (Text.rstrip s) = Text.rstrip s.
Proof.
  induction s as [|c s IH]; [reflexivity|]. cbn [Text.rstrip].
  destruct (Text.rstrip s) as [|k kept] eqn:E.
  - destruct (Text.isspace_char c) eqn:Ec; [reflexivity|]. cbn. rewrite Ec. reflexivity.
  - rewrite (rstrip_cons c (String k kept)), IH. reflexivity.
Qed.

Lemma strip_idempotent (s : string) : Text.strip (Text.strip s) = Text.strip s.
Proof.
  unfold Text.strip.
  rewrite (lstrip_of_clean (Text.rstrip (Text.lstrip s))).
  - apply rstrip_idempotent.
  - apply rstrip_starts_clean, lstrip_starts_clean.
Qed.

Lemma rstrip_app_space (s : string) (c : ascii) :
  Text.isspace_char c = true -> Text.rstrip (s ++ String c "") = Text.rstrip s.
Proof.
  intros Hc. induction s as [|a s IH]; cbn [append Text.rstrip].
  - rewrite Hc. reflexivity.
  - rewrite IH. reflexivity.
Qed.

Lemma strip_app_space (s : string) (c : ascii) :
  Text.isspace_char c = true -> Text.strip (s ++ String c "") = Text.strip s.
Proof.
  intros Hc. unfold Text.strip. induction s as [|a s IH]; cbn [append Text.lstrip].
  - rewrite Hc. reflexivity.
  - destruct (Text.isspace_char a); [exact IH|].
    apply (rstrip_app_space (String a s) c Hc).
Qed.

(** ** [parse_ids] *)

Lemma parse_ids_in (f : list string) (id : string) :
  In id (parse_ids f) <-> exists line, In line f /\ is_id_line line = true /\ id = Text.strip line.
Proof.
  unfold parse_ids, is_id_line. rewrite in_flat_map. split.
  - intros [line [Hin H]]. exists line. cbv zeta in H.
    destruct (negb (Text.strip line =? "")%string
              && negb (Py.startswith (Text.strip line) "#")); [|destruct H].
    destruct H as [<-|[]]. repeat split. exact Hin.
  - intros [line [Hin [H ->]]]. exists line. split; [exact Hin|]. cbv zeta.
    rewrite H. left. reflexivity.
Qed.

(** X1: every identifier that [parse_ids] yields is not empty, does not
    start with "#", and has no white space at either end. *)
Theorem X1_parse_ids_yields_clean_ids (f : list string) (id : string) :
  In id (parse_ids f) ->
  id <> "" /\ Py.startswith id "#" = false /\ Text.strip id = id.
Proof.
  intros H. apply parse_ids_in in H as [line [_ [H ->]]].
  unfold is_id_line in H. apply andb_prop in H as [Hne Hc].
  apply negb_true_iff in Hne, Hc. repeat split.
  - apply String.eqb_neq. exact Hne.
  - exact Hc.
  - apply strip_idempotent.
Qed.

Lemma X1_parse_ids_yields_clean_ids_witness :
  "34 x" <> "" /\ Py.startswith "34 x" "#" = false /\ Text.strip "34 x" = "34 x".
Proof.
  apply (X1_parse_ids_yields_clean_ids ["12"; "  # note"; "  34 x  "; ""] "34 x").
  cbn. right. left. reflexivity.
Defined.

Lemma flat_map_fixed (A : Type) (g : A -> list A) (l : list A) :
  (forall x, In x l -> g x = [x]) -> flat_map g l = l.
Proof.
  induction l as [|x l IH]; intros H; [reflexivity|]. cbn [flat_map].
  rewrite (H x (or_introl eq_refl)). cbn. f_equal. apply IH.
  intros y Hy. apply H. right. exact Hy.
Qed.

(** X2: [parse_ids] leaves its own output alone: the identifiers it
    yields, read again as lines, are yielded again, all of them and
    unchanged. *)
Theorem X2_parse_ids_idempotent (f : list string) :
  parse_ids (parse_ids f) = parse_ids f.
Proof.
  unfold parse_ids at 1. apply flat_map_fixed. intros id Hid.
  apply parse_ids_in in Hid as [line [_ [H ->]]]. cbv zeta.
  rewrite strip_idempotent. unfold is_id_line in H. rewrite H. reflexivity.
Qed.

(** X3: a line that is blank or whose first character after the leading
    white space is "#" can be put anywhere among the lines without
    changing what [parse_ids] yields; the other lines keep their order
    and their repetitions. *)
Theorem X3_parse_ids_skips_comments (before after : list string) (line : string) :
  is_id_line line = false ->
  parse_ids (before ++ line :: after) = (parse_ids before ++ parse_ids after)%list.
Proof.
  intros H. unfold parse_ids. rewrite flat_map_app. cbn [flat_map]. cbv zeta.
  unfold is_id_line in H. rewrite H. reflexivity.
Qed.

Lemma X3_parse_ids_skips_comments_witness :
  parse_ids (["12"] ++ "   # 13 was refunded" :: ["14"])
  = (parse_ids ["12"] ++ parse_ids ["14"])%list.
Proof.
  apply (X3_parse_ids_skips_comments ["12"] ["14"] "   # 13 was refunded").
  reflexivity.
Defined.

(** ** Line endings *)

Lemma ends_alike_cons (x : string) (l1 l2 : list string) :
  ends_alike l1 l2 -> ends_alike (x :: l1) (x :: l2).
Proof.
  intros H. destruct H as [l|l|init last].
  - apply alike_same.
  - apply (alike_empty_line (x :: l)).
  - apply (alike_line_end (x :: init) last).
Qed.

Lemma ends_alike_cons_line (c : ascii) (l1 l2 : list string) :
  ends_alike l1 l2 -> ends_alike (Text.cons_line c l1) (Text.cons_line c l2).
Proof.
  intros H. destruct H as [l|l|init last].
  - apply alike_same.
  - destruct l as [|y ys]; cbn.
    + apply (alike_line_end [] (String c "")).
    + apply (alike_empty_line (String c y :: ys)).
  - destruct init as [|y ys]; cbn.
    + apply (alike_line_end [] (String c last)).
    + apply (alike_line_end (String c y :: ys) last).
Qed.

Lemma readlines_final_newline (s : string) :
  ends_alike (Text.readlines (s ++ String Text.LF "")) (Text.readlines s)
  /\ match s with
     | EmptyString => True
     | String _ s' =>
         ends_alike (Text.readlines (s' ++ String Text.LF "")) (Text.readlines s')
     end.
Proof.
  induction s as [|c rest [IH IH']].
  - split; [|exact I]. apply (alike_empty_line []).
  - split; [|exact IH]. cbn [append Text.readlines].
    destruct (c =? Text.LF)%char; [apply ends_alike_cons; exact IH|].
    destruct (c =? Text.CR)%char; [|apply ends_alike_cons_line; exact IH].
    destruct rest as [|c' rest']; cbn [append].
    + cbn. apply alike_same.
    + destruct (c' =? Text.LF)%char; apply ends_alike_cons; assumption.
Qed.

Lemma parse_ids_ends_alike (l1 l2 : list string) :
  ends_alike l1 l2 -> parse_ids l1 = parse_ids l2.
Proof.
  intros H. destruct H as [l|l|init last]; [reflexivity| |];
    unfold parse_ids; rewrite !flat_map_app; f_equal.
  - rewrite app_nil_r. reflexivity.
  - cbn [flat_map]. cbv zeta. rewrite strip_app_space by reflexivity. reflexivity.
Qed.

(** X4: whether the file ends with a line feed or not makes no
    difference to the identifiers read from it. *)
Theorem X4_final_newline_irrelevant (content : string) :
  parse_ids (Text.readlines (content ++ String Text.LF ""))
  = parse_ids (Text.readlines content).
Proof. apply parse_ids_ends_alike, readlines_final_newline. Qed.

(** X5: a file written with carriage return, line feed as its line
    ending is read as the same lines, and so gives the same identifiers,
    as the file written with line feeds alone. *)
Theorem X5_crlf_reads_like_lf (content : string) :
  Py.mem_char Text.CR content = false ->
  Text.readlines (Text.to_crlf content) = Text.readlines content
  /\ parse_ids (Text.readlines (Text.to_crlf content))
     = parse_ids (Text.readlines content).
Proof.
  intros H.
  assert (E : Text.readlines (Text.to_crlf content) = Text.readlines content).
  { induction content as [|c rest IH]; [reflexivity|].
    cbn [Py.mem_char] in H. apply orb_false_elim in H as [Hc Hrest].
    cbn [Text.to_crlf Text.readlines].
    destruct (c =? Text.LF)%char eqn:El.
    - cbn [Text.readlines]. cbn. rewrite (IH Hrest). reflexivity.
    - cbn [Text.readlines]. rewrite El.
      rewrite Ascii.eqb_sym in Hc. rewrite Hc. rewrite (IH Hrest). reflexivity. }
  split; [exact E|]. rewrite E. reflexivity.
Qed.

Lemma X5_crlf_reads_like_lf_witness :
  Text.readlines (Text.to_crlf ("12" ++ String Text.LF "# x" ++ String Text.LF "34"))
  = Text.readlines ("12" ++ String Text.LF "# x" ++ String Text.LF "34")
  /\ parse_ids (Text.readlines
                  (Text.to_crlf ("12" ++ String Text.LF "# x" ++ String Text.LF "34")))
     = parse_ids (Text.readlines ("12" ++ String Text.LF "# x" ++ String Text.LF "34")).
Proof.
  apply (X5_crlf_reads_like_lf ("12" ++ String Text.LF "# x" ++ String Text.LF "34")).
  reflexivity.
Defined.

(** ** The requests and the sleeps of one call *)

Section CallFacts.

Variable pid : string.
Variable max_retries : Z.
Variable backoff : Q.
Variable server : Z -> attempt_result.

Local Abbreviation body := (loop_body pid max_retries backoff).
Local Abbreviation from := (loop_from pid max_retries backoff server).

Lemma loop_from_trace (n : nat) :
  forall attempt,
    attempt <= max_retries -> Z.to_nat (max_retries - attempt) = n ->
    exists sleeps,
      fst (from attempt) = trace_of (url pid) sleeps
      /\ Z.of_nat (length sleeps) <= max_retries - attempt.
Proof.
  induction n as [|n IH]; intros attempt Hle Hn;
    rewrite (loop_from_step pid max_retries backoff server attempt Hle);
    destruct (body attempt (server attempt)) as [seconds|r|e] eqn:E;
    try (exists []; split; [reflexivity|cbn; lia]);
    apply continue_below_max in E.
  - lia.
  - destruct (IH (attempt + 1)) as [sleeps [Ht Hl]]; [lia|lia|].
    destruct (from (attempt + 1)) as [events exit]. cbn [fst] in *.
    exists (seconds :: sleeps). split; [rewrite Ht; reflexivity|cbn [length]; lia].
Qed.

(** Where a returned row comes from. *)
Lemma loop_from_provenance (n : nat) :
  forall attempt r,
    Z.to_nat (max_retries + 1 - attempt) = n ->
    snd (from attempt) = Finished (Returned r) ->
    exists a,
      attempt <= a <= max_retries
      /\ ((exists resp, server a = Responds resp /\ r = terminal_row pid resp
                        /\ (retryable (status_code resp) = true -> a = max_retries))
          \/ (exists msg, server a = Raises (RequestException msg)
                          /\ a = max_retries /\ r = failed_row pid msg)).
Proof.
  induction n as [|n IH]; intros attempt r Hn Hr.
  - rewrite loop_from_past in Hr by lia. discriminate.
  - rewrite loop_from_step in Hr by lia.
    destruct (body attempt (server attempt)) as [seconds|r'|e] eqn:E.
    + destruct (IH (attempt + 1) r) as [a [Ha H]]; [lia| |].
      * destruct (from (attempt + 1)) as [events exit]. exact Hr.
      * exists a. split; [lia|exact H].
    + injection Hr as <-. exists attempt. split; [lia|].
      destruct (loop_body_return pid max_retries backoff attempt _ r' E)
        as [[resp [Hg [_ [Hlast ->]]]]|[msg [Hg [Hlast ->]]]].
      * left. exists resp. split; [exact Hg|]. split; [reflexivity|].
        intros Hret. rewrite Hret in Hlast. cbn [andb] in Hlast.
        apply Z.ltb_ge in Hlast. lia.
      * right. exists msg. apply Z.ltb_ge in Hlast.
        split; [exact Hg|split; [lia|reflexivity]].
    + discriminate.
Qed.


End CallFacts.

Lemma requests_in_trace (target : string) (sleeps : list Q) :
  requests_in (trace_of target sleeps) = S (length sleeps).
Proof.
  unfold requests_in, trace_of. induction sleeps as [|s sleeps IH]; [reflexivity|].
  cbn [flat_map app filter length] in *. rewrite IH. reflexivity.
Qed.

(** X6: a call never issues more than [max_retries] requests, all of them
    to the URL of its identifier, and every sleep that it carries out is
    followed by another request (a [time.sleep] that raises is no sleep):
    with [max_retries] below 1 it does nothing at all; otherwise its
    events are a request, then a sleep and a request for every retry, with
    fewer retries than [max_retries]. *)
Theorem X6_requests_bounded (pid : string) (max_retries : Z) (backoff : Q)
        (server : Z -> attempt_result) :
  let events := fst (fetch_payment pid max_retries backoff server) in
  (max_retries <= 0 /\ events = [])
  \/ (exists sleeps,
         events = trace_of (url pid) sleeps
         /\ requests_in events = S (length sleeps)
         /\ Z.of_nat (requests_in events) <= max_retries).
Proof.
  cbv zeta. rewrite fetch_payment_loop_from.
  destruct (Z_le_gt_dec max_retries 0) as [Hle|Hgt].
  - left. split; [exact Hle|]. rewrite loop_from_past by lia. reflexivity.
  - right.
    destruct (loop_from_trace pid max_retries backoff server
                (Z.to_nat (max_retries - 1)) 1 ltac:(lia) eq_refl) as [sleeps [Ht Hl]].
    exists sleeps.
    destruct (loop_from pid max_retries backoff server 1) as [events exit].
    cbn [fst] in Ht. subst events.
    assert (E : fst (match exit with
                     | Finished c => (trace_of (url pid) sleeps, c)
                     | FellThrough =>
                         (trace_of (url pid) sleeps, Returned (fallback_row pid))
                     end) = trace_of (url pid) sleeps) by (destruct exit; reflexivity).
    rewrite E, requests_in_trace. repeat split. lia.
Qed.

(** Where the row of a call comes from. *)
Lemma fetch_payment_provenance (pid : string) (max_retries : Z) (backoff : Q)
      (server : Z -> attempt_result) (r : row) :
  snd (fetch_payment pid max_retries backoff server) = Returned r ->
  (max_retries <= 0 /\ r = fallback_row pid)
  \/ exists a,
       1 <= a <= max_retries
       /\ ((exists resp, server a = Responds resp /\ r = terminal_row pid resp
                         /\ (retryable (status_code resp) = true -> a = max_retries))
           \/ (exists msg, server a = Raises (RequestException msg)
                           /\ a = max_retries /\ r = failed_row pid msg)).
Proof.
  rewrite fetch_payment_loop_from. intros H.
  destruct (Z_le_gt_dec max_retries 0) as [Hle|Hgt].
  - left. split; [exact Hle|]. rewrite loop_from_past in H by lia.
    cbn in H. injection H as <-. reflexivity.
  - right.
    apply (loop_from_provenance pid max_retries backoff server
             (Z.to_nat (max_retries + 1 - 1)) 1 r eq_refl).
    destruct (loop_from_finishes pid max_retries backoff server
                (Z.to_nat (max_retries - 1)) 1 ltac:(lia) eq_refl) as [c Hc].
    destruct (loop_from pid max_retries backoff server 1) as [events exit].
    cbn [snd] in *. subst exit. cbn in H. rewrite H. reflexivity.
Qed.

(** X7: every row that a call returns is the row of one single attempt:
    the row of the response of some attempt between 1 and [max_retries],
    which is the last attempt whenever the status of that response is a
    retryable one; or the row of a request exception on the last attempt;
    or, with [max_retries] below 1, the fallback row. *)
Theorem X7_row_provenance (pid : string) (max_retries : Z) (backoff : Q)
        (server : Z -> attempt_result) (r : row) :
  snd (fetch_payment pid max_retries backoff server) = Returned r ->
  (max_retries <= 0 /\ r = fallback_row pid)
  \/ exists a,
       1 <= a <= max_retries
       /\ ((exists resp, server a = Responds resp /\ r = terminal_row pid resp
                         /\ (retryable (status_code resp) = true -> a = max_retries))
           \/ (exists msg, server a = Raises (RequestException msg)
                           /\ a = max_retries /\ r = failed_row pid msg)).
Proof. apply fetch_payment_provenance. Qed.

Lemma X7_row_provenance_witness :
  (3 <= 0 /\ terminal_row "77" Samples.paid = fallback_row "77")
  \/ exists a,
       1 <= a <= 3
       /\ ((exists resp,
               (fun _ : Z => Responds Samples.paid) a = Responds resp
               /\ terminal_row "77" Samples.paid = terminal_row "77" resp
               /\ (retryable (status_code resp) = true -> a = 3))
           \/ (exists msg,
                  (fun _ : Z => Responds Samples.paid) a = Raises (RequestException msg)
                  /\ a = 3 /\ terminal_row "77" Samples.paid = failed_row "77" msg)).
Proof.
  apply (X7_row_provenance "77" 3 (12 # 10) (fun _ => Responds Samples.paid)
           (terminal_row "77" Samples.paid)).
  reflexivity.
Defined.

Lemma terminal_row_shape (pid : string) (resp : response) :
  let r := terminal_row pid resp in
  http_status r = status_code resp
  /\ ((error r = "" /\ is_2xx (http_status r) = true)
      \/ (error r <> "" /\ order_id r = "" /\ external_reference r = "")).
Proof.
  cbv zeta. unfold terminal_row. destruct (read_body resp) as [data err].
  destruct (is_2xx (status_code resp)) eqn:H2.
  - destruct (Py.as_dict data) as [entries|] eqn:Hd.
    + split; [reflexivity|]. left. split; [reflexivity|exact H2].
    + split; [reflexivity|]. right. cbn [error order_id external_reference].
      split; [|split; reflexivity]. apply or_str_nonempty. discriminate.
  - split; [reflexivity|]. right. cbn [error order_id external_reference].
    split; [|split; reflexivity]. apply or_str_nonempty. discriminate.
Qed.

(** X8: in every row that a call returns, an empty [error] goes with a
    2xx [http_status], and a non-empty [error] goes with an empty
    [order_id] and an empty [external_reference]: no row carries both an
    error and an order. *)
Theorem X8_error_excludes_order (pid : string) (max_retries : Z) (backoff : Q)
        (server : Z -> attempt_result) (r : row) :
  snd (fetch_payment pid max_retries backoff server) = Returned r ->
  (error r = "" /\ is_2xx (http_status r) = true)
  \/ (error r <> "" /\ order_id r = "" /\ external_reference r = "").
Proof.
  intros H.
  destruct (fetch_payment_provenance pid max_retries backoff server r H)
    as [[_ ->]|[a [_ [[resp [_ [-> _]]]|[msg [_ [_ ->]]]]]]].
  - right. repeat split. discriminate.
  - apply terminal_row_shape.
  - right. repeat split. discriminate.
Qed.

Lemma X8_error_excludes_order_witness :
  (error (terminal_row "77" Samples.not_found) = ""
   /\ is_2xx (http_status (terminal_row "77" Samples.not_found)) = true)
  \/ (error (terminal_row "77" Samples.not_found) <> ""
      /\ order_id (terminal_row "77" Samples.not_found) = ""
      /\ external_reference (terminal_row "77" Samples.not_found) = "").
Proof.
  apply (X8_error_excludes_order "77" 3 (12 # 10) (fun _ => Responds Samples.not_found)
           (terminal_row "77" Samples.not_found)).
  reflexivity.
Defined.

(** ** Retry schedules *)



Lemma isdigit_of_ascii_digits (s : string) :
  s <> "" -> Py.all_chars Py.is_ascii_digit s = true -> Py.isdigit s = true.
Proof.
  intros Hne H. unfold Py.isdigit. apply andb_true_intro. split.
  - apply negb_true_iff, String.eqb_neq. exact Hne.
  - clear Hne. induction s as [|c s IH]; [reflexivity|]. cbn [Py.all_chars] in *.
    apply andb_prop in H as [Hc Hs]. rewrite (IH Hs).
    unfold Py.isdigit_char. rewrite Hc. reflexivity.
Qed.










(** X14: a 2xx response declared as JSON whose body decodes to something
    that is not a mapping (a list, a string, a number, [null]) ends the
    call at once with empty [order_id] and [external_reference] and the
    error "HTTP {status}". *)
Theorem X14_2xx_not_a_mapping (pid : string) (max_retries : Z) (backoff : Q)
        (server : Z -> attempt_result) (attempt : Z) (resp : response) (v : Py.pyval) :
  attempt <= max_retries ->
  server attempt = Responds resp ->
  is_2xx (status_code resp) = true ->
  Py.startswith (ct resp) "application/json" = true ->
  json resp = Decoded v ->
  Py.as_dict v = None ->
  loop_from pid max_retries backoff server attempt =
    ([Get (url pid)],
     Finished (Returned {| payment_id := pid; order_id := ""; external_reference := "";
                           http_status := status_code resp;
                           error := "HTTP " ++ Py.str_int (status_code resp) |})).
Proof.
  intros Hle Hs H2 Hct Hj Hv.
  rewrite (loop_from_terminal pid max_retries backoff server attempt resp Hle Hs)
    by (first [apply body_exception_none; right; left; eexists; exact Hj
              |rewrite (is_2xx_not_retryable _ H2); reflexivity]).
  rewrite terminal_row_failure.
  - cbv zeta. rewrite Hct, Hj. destruct v; try reflexivity. discriminate.
  - right. right. intros entries E. rewrite Hj in E. injection E as ->. discriminate.
Qed.

Lemma X14_2xx_not_a_mapping_witness :
  loop_from "77" 3 (12 # 10)
    (fun _ => Responds (Samples.json_response 200 (Py.PyList [Py.PyInt 1; Py.PyInt 2]))) 1
  = ([Get (url "77")],
     Finished (Returned {| payment_id := "77"; order_id := ""; external_reference := "";
                           http_status := 200; error := "HTTP 200" |})).
Proof.
  apply (X14_2xx_not_a_mapping "77" 3 (12 # 10)
           (fun _ => Responds (Samples.json_response 200 (Py.PyList [Py.PyInt 1; Py.PyInt 2])))
           1 (Samples.json_response 200 (Py.PyList [Py.PyInt 1; Py.PyInt 2]))
           (Py.PyList [Py.PyInt 1; Py.PyInt 2]));
    (lia || reflexivity).
Defined.

(** ** The output file *)

Lemma write_rows_shape (writerow : row -> option exn) (completed : list completion) :
  forall written count,
  exists rows exc,
    write_rows writerow completed written count =
      ((written ++ map DataRow rows)%list, (count + length rows)%nat, exc)
    /\ (forall r, In r rows -> In (Returned r) completed).
Proof.
  induction completed as [|[r|e] rest IH]; intros written count.
  - exists [], None. cbn. rewrite app_nil_r, Nat.add_0_r. split; [reflexivity|tauto].
  - cbn [write_rows]. destruct (writerow r) as [e|].
    + exists [], (Some e). cbn. rewrite app_nil_r, Nat.add_0_r.
      split; [reflexivity|tauto].
    + destruct (IH (written ++ [DataRow r])%list (S count)) as [rows [exc [E Hin]]].
      exists (r :: rows), exc. rewrite E, <- app_assoc. cbn. split.
      * repeat f_equal. lia.
      * intros r' [<-|H]; [left; reflexivity|right; apply Hin; exact H].
  - exists [], (Some e). cbn. rewrite app_nil_r, Nat.add_0_r. split; [reflexivity|tauto].
Qed.

Lemma as_completed_in (order : list nat) (fs : list completion) (c : completion) :
  In c (as_completed order fs) -> In c fs.
Proof.
  unfold as_completed. rewrite in_flat_map. intros [i [_ H]].
  destruct (nth_error fs i) as [f|] eqn:E; [|destruct H].
  destruct H as [<-|[]]. apply (nth_error_In _ _ E).
Qed.

(** X15: the output file is opened exactly when there is an identifier;
    it then starts with the header, written once, followed by data rows
    only, [processed] is the number of these rows, and each of them is a
    row that one of the tasks returned. This holds for every run, also
    one that an exception ends, whatever the number of workers and
    whatever [writer.writerow] does. *)
Theorem X15_file_shape (workers retries : Z) (writerow : row -> option exn)
        (network : nat -> Z -> attempt_result)
        (payment_ids : list string) (order : list nat) :
  let run := main workers retries writerow network payment_ids order in
  match outfile run with
  | None => payment_ids = [] /\ processed run = 0%nat /\ uncaught run = None
  | Some lines =>
      payment_ids <> []
      /\ exists rows,
           lines = Header fieldnames :: map DataRow rows
           /\ processed run = length rows
           /\ forall r, In r rows -> In (Returned r) (futures retries network payment_ids)
  end.
Proof.
  cbv zeta. unfold main. destruct payment_ids as [|pid ids]; [repeat split|].
  cbn [length Nat.eqb]. destruct (workers <=? 0).
  - cbn [outfile processed]. split; [discriminate|]. exists []. repeat split.
    intros r [].
  - destruct (write_rows_shape writerow
                (as_completed order (futures retries network (pid :: ids)))
                [Header fieldnames] 0) as [rows [exc [E Hin]]].
    rewrite E. cbn [outfile processed]. split; [discriminate|].
    exists rows. repeat split. intros r Hr. apply (as_completed_in order), Hin, Hr.
Qed.

(** X16: when the number of workers is positive, no task ends with an
    exception and [writer.writerow] raises on none of the rows, the data
    rows stand in the file in the order in which the futures completed. *)
Theorem X16_rows_in_completion_order (workers retries : Z) (writerow : row -> option exn)
        (network : nat -> Z -> attempt_result)
        (payment_ids : list string) (order : list nat) :
  0 < workers ->
  payment_ids <> [] ->
  (forall i pid, nth_error payment_ids i = Some pid ->
                 exists r, snd (fetch_payment pid retries (12 # 10) (network i)) = Returned r) ->
  (forall r, In (Returned r) (futures retries network payment_ids) -> writerow r = None) ->
  map Returned (sink (main workers retries writerow network payment_ids order))
  = as_completed order (futures retries network payment_ids).
Proof.
  intros Hworkers Hne Hret Hwrite.
  assert (Hall : Forall (fun c => exists r, c = Returned r)
                        (as_completed order (futures retries network payment_ids))).
  { apply Forall_forall. intros c Hc. apply as_completed_in in Hc.
    unfold futures in Hc. apply in_map_iff in Hc as [[i pid] [<- Hin]].
    apply combine_seq_in in Hin as [Hin _]. rewrite Nat.sub_0_r in Hin.
    apply (Hret _ _ Hin). }
  destruct (all_returned _ Hall) as [rows Hrows].
  assert (Hw : forall r, In r rows -> writerow r = None).
  { intros r Hr. apply Hwrite. apply (as_completed_in order). rewrite Hrows.
    apply in_map. exact Hr. }
  unfold main. destruct payment_ids as [|pid ids]; [contradiction|].
  cbn [length Nat.eqb].
  replace (workers <=? 0) with false by (symmetry; apply Z.leb_gt; exact Hworkers).
  rewrite Hrows, (write_rows_all writerow rows Hw). unfold sink. cbn [outfile app].
  rewrite data_rows_written. reflexivity.
Qed.

Lemma X16_rows_in_completion_order_witness :
  map Returned (sink (main 5 3 Samples.writes_all (fun _ _ => Responds Samples.paid)
                        ["a"; "b"; "c"] [2; 0; 1]%nat))
  = as_completed [2; 0; 1]%nat (futures 3 (fun _ _ => Responds Samples.paid) ["a"; "b"; "c"]).
Proof.
  apply (X16_rows_in_completion_order 5 3 Samples.writes_all
           (fun _ _ => Responds Samples.paid) ["a"; "b"; "c"] [2; 0; 1]%nat).
  - lia.
  - discriminate.
  - intros i pid _. eexists. reflexivity.
  - intros r _. reflexivity.
Defined.

(** ** [main] and what it prints *)

Lemma cli_write_rows_agrees (writerow : row -> option exn) (path : string) (total : nat)
      (completed : list completion) :
  forall written done printed,
    fst (Cli.write_rows writerow path total completed written done printed)
    = write_rows writerow completed written done.
Proof.
  induction completed as [|[r|e] rest IH]; intros written done printed;
    cbn [Cli.write_rows write_rows]; [reflexivity| |reflexivity].
  destruct (writerow r); [reflexivity|apply IH].
Qed.

(** With a token that is not blank, the [main] that prints and the
    collecting loop agree on the file, on the counter and on how the run
    ends. *)
Lemma cli_main_agrees (args : Cli.Args) (writerow : row -> option exn)
      (network : nat -> Z -> attempt_result) (order : list nat) (tok : string) :
  Cli.token args = Some tok ->
  Text.strip tok <> "" ->
  let run := main (Cli.workers args) (Cli.retries args) writerow network
                  (parse_ids (Cli.infile args)) order in
  let cli := Cli.main args writerow network order in
  Cli.file cli = outfile run
  /\ Cli.count cli = processed run
  /\ Cli.status cli = match uncaught run with
                      | Some e => Cli.Uncaught e
                      | None => Cli.Done
                      end.
Proof.
  intros Ht Hne. cbv zeta. unfold Cli.main, main. rewrite Ht.
  apply String.eqb_neq in Hne. rewrite Hne.
  destruct (length (parse_ids (Cli.infile args)) =? 0)%nat; [repeat split|].
  destruct (Cli.workers args <=? 0); [repeat split|].
  pose proof (cli_write_rows_agrees writerow (Cli.outfile_path args)
                (length (parse_ids (Cli.infile args)))
                (as_completed order
                   (futures (Cli.retries args) network (parse_ids (Cli.infile args))))
                [Header fieldnames] 0%nat []) as E.
  destruct (Cli.write_rows _ _ _ _ _ _ _) as [[[written done] exc] printed].
  cbn [fst] in E. rewrite <- E. destruct exc; repeat split.
Qed.

Lemma strip_blank (s : string) :
  Py.all_chars Text.isspace_char s = true -> Text.strip s = "".
Proof.
  unfold Text.strip. induction s as [|c s IH]; [reflexivity|].
  cbn [Py.all_chars Text.lstrip]. intros H. apply andb_prop in H as [Hc Hs].
  rewrite Hc. exact (IH Hs).
Qed.

(** X17: without a token, or with one made of white space only, [main]
    ends with [SystemExit] before it reads an identifier, opens the output
    file, issues a request or prints a line. *)
Theorem X17_blank_token_is_fatal (args : Cli.Args) (writerow : row -> option exn)
        (network : nat -> Z -> attempt_result) (order : list nat) :
  match Cli.token args with
  | Some tok => Py.all_chars Text.isspace_char tok = true
  | None => True
  end ->
  Cli.main args writerow network order =
    {| Cli.stdout := []; Cli.file := None; Cli.count := 0;
       Cli.status := Cli.SystemExit "Error: provide a token with --token or set MP_TOKEN." |}.
Proof.
  intros H. unfold Cli.main.
  destruct (Cli.token args) as [tok|]; [rewrite (strip_blank tok H)|]; reflexivity.
Qed.

Lemma X17_blank_token_is_fatal_witness :
  Cli.main {| Cli.infile := ["a"]; Cli.outfile_path := "out.csv";
              Cli.token := Some "   "; Cli.retries := 3; Cli.workers := 5 |}
           Samples.writes_all (fun _ _ => Responds Samples.paid) [0%nat] =
    {| Cli.stdout := []; Cli.file := None; Cli.count := 0;
       Cli.status := Cli.SystemExit "Error: provide a token with --token or set MP_TOKEN." |}.
Proof.
  apply (X17_blank_token_is_fatal
           {| Cli.infile := ["a"]; Cli.outfile_path := "out.csv";
              Cli.token := Some "   "; Cli.retries := 3; Cli.workers := 5 |}).
  reflexivity.
Defined.

Lemma parse_ids_skip_line (line : string) (f : list string) :
  is_id_line line = false -> parse_ids f = [] -> parse_ids (line :: f) = [].
Proof.
  intros H E. unfold parse_ids in *. cbn [flat_map]. cbv zeta.
  unfold is_id_line in H. rewrite H, E. reflexivity.
Qed.

Lemma parse_ids_nil (f : list string) :
  (forall line, In line f -> is_id_line line = false) -> parse_ids f = [].
Proof.
  induction f as [|line f IH]; intros H; [reflexivity|].
  apply (parse_ids_skip_line line f); [apply H; left; reflexivity|].
  apply IH. intros l Hl. apply H. right. exact Hl.
Qed.

(** X18: when every line of the input is blank or a comment, [main]
    prints "No payment IDs found." and ends normally without opening the
    output file. *)
Theorem X18_nothing_to_do (args : Cli.Args) (writerow : row -> option exn)
        (network : nat -> Z -> attempt_result) (order : list nat) (tok : string) :
  Cli.token args = Some tok ->
  Text.strip tok <> "" ->
  (forall line, In line (Cli.infile args) -> is_id_line line = false) ->
  Cli.main args writerow network order =
    {| Cli.stdout := ["No payment IDs found."]; Cli.file := None; Cli.count := 0;
       Cli.status := Cli.Done |}.
Proof.
  intros Ht Hne Hlines. unfold Cli.main. rewrite Ht.
  apply String.eqb_neq in Hne. rewrite Hne, (parse_ids_nil _ Hlines). reflexivity.
Qed.

Lemma X18_nothing_to_do_witness :
  Cli.main {| Cli.infile := ["# ids of May"; ""; "   "]; Cli.outfile_path := "out.csv";
              Cli.token := Some "T0K3N"; Cli.retries := 3; Cli.workers := 5 |}
           Samples.writes_all (fun _ _ => Responds Samples.paid) [] =
    {| Cli.stdout := ["No payment IDs found."]; Cli.file := None; Cli.count := 0;
       Cli.status := Cli.Done |}.
Proof.
  apply (X18_nothing_to_do
           {| Cli.infile := ["# ids of May"; ""; "   "]; Cli.outfile_path := "out.csv";
              Cli.token := Some "T0K3N"; Cli.retries := 3; Cli.workers := 5 |}
           Samples.writes_all (fun _ _ => Responds Samples.paid) [] "T0K3N").
  - reflexivity.
  - discriminate.
  - intros line [<-|[<-|[<-|[]]]]; reflexivity.
Defined.

Lemma cli_write_rows_all (writerow : row -> option exn) (path : string) (total : nat)
      (rows : list row) :
  (forall r, In r rows -> writerow r = None) ->
  forall written done printed,
    Cli.write_rows writerow path total (map Returned rows) written done printed =
      ((written ++ map DataRow rows)%list, (done + length rows)%nat, None,
       (printed ++ map (fun k => Cli.progress_line k total path)
                       (filter (fun k => Cli.reports k total)
                               (seq (S done) (length rows))))%list).
Proof.
  induction rows as [|r rows IH]; intros Hw written done printed.
  - cbn. rewrite !app_nil_r, Nat.add_0_r. reflexivity.
  - cbn [map Cli.write_rows length seq filter].
    rewrite (Hw r (or_introl eq_refl)), IH, <- app_assoc
      by (intros r' Hr'; apply Hw; right; exact Hr').
    destruct (Cli.reports (S done) total).
    + cbn [map]. rewrite <- app_assoc. cbn [app]. rewrite Nat.add_succ_r. reflexivity.
    + rewrite Nat.add_succ_r. reflexivity.
Qed.

(** X19: when the number of workers is positive, no task ends with an
    exception and [writer.writerow] raises on none of the rows, [main]
    prints one progress line for every tenth row written and one for the
    last row, in this order and nothing else, and then the closing line
    with the number of identifiers. *)
Theorem X19_progress_lines (args : Cli.Args) (writerow : row -> option exn)
        (network : nat -> Z -> attempt_result) (order : list nat) (tok : string) :
  let payment_ids := parse_ids (Cli.infile args) in
  let total := length payment_ids in
  Cli.token args = Some tok ->
  Text.strip tok <> "" ->
  0 < Cli.workers args ->
  payment_ids <> [] ->
  Permutation order (seq 0 total) ->
  (forall i pid, nth_error payment_ids i = Some pid ->
                 exists r, snd (fetch_payment pid (Cli.retries args) (12 # 10) (network i))
                           = Returned r) ->
  (forall r, In (Returned r) (futures (Cli.retries args) network payment_ids) ->
             writerow r = None) ->
  Cli.stdout (Cli.main args writerow network order) =
    (map (fun k => Cli.progress_line k total (Cli.outfile_path args))
         (filter (fun k => (k mod 10 =? 0) || (k =? total))%nat (seq 1 total))
     ++ [("Done. Processed " ++ Cli.str_nat total ++ " payment IDs. Output: "
            ++ Cli.outfile_path args)%string])%list.
Proof.
  cbv zeta. intros Ht Hne Hworkers Hids Hperm Hret Hwrite.
  set (payment_ids := parse_ids (Cli.infile args)) in *.
  assert (Hlen : length (futures (Cli.retries args) network payment_ids)
                 = length payment_ids).
  { unfold futures. rewrite length_map, length_combine, length_seq. lia. }
  assert (Hp : Permutation
                 (as_completed order (futures (Cli.retries args) network payment_ids))
                 (futures (Cli.retries args) network payment_ids)).
  { apply as_completed_permutation. rewrite Hlen. exact Hperm. }
  assert (Hall : Forall (fun c => exists r, c = Returned r)
                        (as_completed order
                           (futures (Cli.retries args) network payment_ids))).
  { apply Forall_forall. intros c Hc. apply as_completed_in in Hc.
    unfold futures in Hc. apply in_map_iff in Hc as [[i pid] [<- Hin]].
    apply combine_seq_in in Hin as [Hin _]. rewrite Nat.sub_0_r in Hin.
    apply (Hret _ _ Hin). }
  destruct (all_returned _ Hall) as [rows Hrows].
  assert (Hn : length rows = length payment_ids).
  { rewrite <- Hlen, <- (Permutation_length Hp), Hrows, length_map. reflexivity. }
  assert (Hw : forall r, In r rows -> writerow r = None).
  { intros r Hr. apply Hwrite. apply (as_completed_in order). rewrite Hrows.
    apply in_map. exact Hr. }
  unfold Cli.main. rewrite Ht. apply String.eqb_neq in Hne. rewrite Hne.
  fold payment_ids.
  destruct (length payment_ids =? 0)%nat eqn:E.
  { apply Nat.eqb_eq in E. destruct payment_ids; [contradiction|discriminate]. }
  replace (Cli.workers args <=? 0) with false
    by (symmetry; apply Z.leb_gt; exact Hworkers).
  rewrite Hrows, (cli_write_rows_all writerow _ _ rows Hw). cbn [Cli.stdout app].
  rewrite Hn. unfold Cli.reports. reflexivity.
Qed.

Lemma X19_progress_lines_witness :
  Cli.stdout (Cli.main {| Cli.infile := ["a"; "b"]; Cli.outfile_path := "out.csv";
                          Cli.token := Some "T0K3N"; Cli.retries := 3;
                          Cli.workers := 5 |}
                       Samples.writes_all (fun _ _ => Responds Samples.paid) [1; 0]%nat)
  = ["[2/2] wrote rows to out.csv"; "Done. Processed 2 payment IDs. Output: out.csv"].
Proof.
  rewrite (X19_progress_lines
             {| Cli.infile := ["a"; "b"]; Cli.outfile_path := "out.csv";
                Cli.token := Some "T0K3N"; Cli.retries := 3; Cli.workers := 5 |}
             Samples.writes_all (fun _ _ => Responds Samples.paid) [1; 0]%nat "T0K3N").
  - reflexivity.
  - reflexivity.
  - discriminate.
  - reflexivity.
  - discriminate.
  - apply perm_swap.
  - intros i pid _. eexists. reflexivity.
  - intros r _. reflexivity.
Defined.

(** ** Sessions *)

(** X20: on one thread, every call of [get_session] returns the session
    that the first call built, whatever token, proxies, timeout or pool
    size the later calls pass. *)
Theorem X20_first_session_is_kept (default_headers default_proxies : list (string * string))
        (first : session_args) (later : list session_args) :
  sessions default_headers default_proxies None (first :: later)
  = repeat (_build_session default_headers default_proxies (arg_token first)
              (arg_proxies first) (arg_timeout first) (arg_pool_size first))
           (S (length later)).
Proof.
  cbn [sessions get_session repeat]. f_equal.
  generalize (_build_session default_headers default_proxies (arg_token first)
                (arg_proxies first) (arg_timeout first) (arg_pool_size first)).
  intros built. induction later as [|a later IH]; [reflexivity|].
  cbn [sessions get_session length repeat]. f_equal. exact IH.
Qed.

Lemma lookup_update_same (norm : string -> string) (d : list (string * string))
      (k k' v : string) :
  norm k = norm k' -> lookup_entry norm (update_entry norm d k v) k' = Some v.
Proof.
  intros H. induction d as [|[k0 v0] d IH]; cbn [update_entry lookup_entry].
  - rewrite H, String.eqb_refl. reflexivity.
  - destruct (norm k0 =? norm k)%string eqn:E; cbn [lookup_entry].
    + rewrite H, String.eqb_refl. reflexivity.
    + rewrite <- H, E. exact IH.
Qed.

Lemma lookup_update_other (norm : string -> string) (d : list (string * string))
      (k k' v : string) :
  norm k <> norm k' ->
  lookup_entry norm (update_entry norm d k v) k' = lookup_entry norm d k'.
Proof.
  intros H. apply String.eqb_neq in H.
  induction d as [|[k0 v0] d IH]; cbn [update_entry lookup_entry].
  - rewrite H. reflexivity.
  - destruct (norm k0 =? norm k)%string eqn:E; cbn [lookup_entry].
    + apply String.eqb_eq in E. rewrite E, H. reflexivity.
    + rewrite IH. reflexivity.
Qed.

(** X21: whatever headers a fresh session starts with, the session that
    [_build_session] returns sends "Bearer " followed by the token as
    [Authorization], "application/json" as [Accept] and the program's own
    [User-Agent], under whatever case the header is asked for, and every
    other header as the fresh session had it. *)
Theorem X21_session_headers (default_headers default_proxies : list (string * string))
        (token : string) (proxies : option (list (string * string)))
        (timeout : Q) (pool_size : Z) (k : string) :
  let h := headers (_build_session default_headers default_proxies token proxies
                      timeout pool_size) in
  lookup_entry lower h k =
    if (lower k =? "authorization")%string then Some ("Bearer " ++ token)
    else if (lower k =? "accept")%string then Some "application/json"
    else if (lower k =? "user-agent")%string then Some "mp-orders-fetch/parallel-1.0"
    else lookup_entry lower default_headers k.
Proof.
  cbv zeta. cbn [headers _build_session]. unfold dict_update. cbn [fold_left fst snd].
  destruct (lower k =? "user-agent")%string eqn:Eu.
  - apply String.eqb_eq in Eu. rewrite Eu. cbn [String.eqb Ascii.eqb Bool.eqb].
    apply lookup_update_same. rewrite Eu. reflexivity.
  - rewrite lookup_update_other
      by (intros C; apply String.eqb_neq in Eu; apply Eu; rewrite <- C; reflexivity).
    destruct (lower k =? "accept")%string eqn:Ea.
    + apply String.eqb_eq in Ea. rewrite Ea. cbn [String.eqb Ascii.eqb Bool.eqb].
      apply lookup_update_same. rewrite Ea. reflexivity.
    + rewrite lookup_update_other
        by (intros C; apply String.eqb_neq in Ea; apply Ea; rewrite <- C; reflexivity).
      destruct (lower k =? "authorization")%string eqn:Eh.
      * apply String.eqb_eq in Eh. apply lookup_update_same. rewrite Eh. reflexivity.
      * apply lookup_update_other.
        intros C. apply String.eqb_neq in Eh. apply Eh. rewrite <- C. reflexivity.
Qed.

(** ** Exceptions that end a call or a run *)

(** X22: when the content type is JSON and [resp.json()] raises something
    else than [JSONDecodeError] ([RecursionError] on a deeply nested body,
    [ValueError] on an integer of too many digits), the call ends with
    that exception after the GET, whatever the status and the attempt: no
    row, no sleep, no further attempt. *)
Theorem X22_json_exception_leaves (pid : string) (max_retries : Z) (backoff : Q)
        (server : Z -> attempt_result) (attempt : Z) (resp : response) (e : exn) :
  attempt <= max_retries ->
  server attempt = Responds resp ->
  body_exception resp = Some e ->
  loop_from pid max_retries backoff server attempt = ([Get (url pid)], Finished (Raised e)).
Proof.
  intros Hle Hs Hb.
  rewrite loop_from_step by exact Hle. rewrite Hs. unfold loop_body. rewrite Hb.
  destruct (body_exception_cases resp e Hb) as [[msg ->]|[msg ->]]; reflexivity.
Qed.

Lemma X22_json_exception_leaves_witness :
  loop_from "77" 3 (12 # 10) (fun _ => Responds Samples.deeply_nested) 1 =
    ([Get (url "77")],
     Finished (Raised (OtherException "maximum recursion depth exceeded"))).
Proof.
  apply (X22_json_exception_leaves "77" 3 (12 # 10)
           (fun _ => Responds Samples.deeply_nested) 1 Samples.deeply_nested
           (OtherException "maximum recursion depth exceeded")
           ltac:(lia) eq_refl eq_refl).
Defined.

(** X23: a retryable status on an attempt below [max_retries] whose
    [Retry-After] header is a string of decimal digits spelling 2^63
    nanoseconds or more (9223372037 seconds and up) ends the call with
    [OverflowError] after the GET: [time.sleep] does not sleep, and no
    further attempt is made. *)
Theorem X23_retry_after_too_long (pid : string) (max_retries : Z) (backoff : Q)
        (server : Z -> attempt_result) (attempt : Z) (resp : response)
        (retry_after : string) :
  attempt < max_retries ->
  server attempt = Responds resp ->
  body_exception resp = None ->
  retryable (status_code resp) = true ->
  retry_after_header resp = Some retry_after ->
  retry_after <> "" ->
  Py.all_chars Py.is_ascii_digit retry_after = true ->
  (SLEEP_LIMIT <= inject_Z (Py.decimal_value 0 retry_after))%Q ->
  loop_from pid max_retries backoff server attempt =
    ([Get (url pid)], Finished (Raised OverflowError)).
Proof.
  intros Hlt Hs Hb Hr Hh Hne Hd Hbig.
  rewrite loop_from_step by lia. rewrite Hs, retryable_response_step by assumption.
  pose proof (sleep_s_cases backoff resp attempt) as C.
  rewrite Hh, (isdigit_of_ascii_digits _ Hne Hd), Hd in C. rewrite C.
  unfold time_sleep. apply Qle_bool_iff in Hbig. rewrite Hbig. reflexivity.
Qed.

Lemma X23_retry_after_too_long_witness :
  loop_from "77" 3 (12 # 10)
    (fun _ => Responds (Samples.rate_limited (Some "9223372037"))) 1
  = ([Get (url "77")], Finished (Raised OverflowError)).
Proof.
  apply (X23_retry_after_too_long "77" 3 (12 # 10)
           (fun _ => Responds (Samples.rate_limited (Some "9223372037"))) 1
           (Samples.rate_limited (Some "9223372037")) "9223372037"
           ltac:(lia) eq_refl eq_refl eq_refl eq_refl ltac:(discriminate) eq_refl).
  vm_compute. discriminate.
Defined.



(** X25: when [writer.writerow] raises on a row, the loop of [main] ends
    there with that exception: the rows written before stay, this row is
    neither written nor counted, and the futures that complete later are
    not collected, whether they returned or raised. *)
Theorem X25_failed_write_ends_run (writerow : row -> option exn)
        (rows : list row) (r : row) (e : exn) (later : list completion)
        (written : list csv_line) (count : nat) :
  (forall r', In r' rows -> writerow r' = None) ->
  writerow r = Some e ->
  write_rows writerow (map Returned rows ++ Returned r :: later)%list written count =
    ((written ++ map DataRow rows)%list, (count + length rows)%nat, Some e).
Proof.
  intros Hw He. revert written count.
  induction rows as [|r0 rows IH]; intros written count; cbn.
  - rewrite He, app_nil_r, Nat.add_0_r. reflexivity.
  - rewrite (Hw r0 (or_introl eq_refl)), IH, <- app_assoc.
    + cbn. repeat f_equal. lia.
    + intros r' Hr'. apply Hw. right. exact Hr'.
Qed.

Lemma X25_failed_write_ends_run_witness :
  write_rows Samples.cannot_encode_a
    (map Returned [fallback_row "b"] ++ Returned (fallback_row "a")
       :: [Returned (fallback_row "c")])%list [Header fieldnames] 0 =
    (([Header fieldnames] ++ map DataRow [fallback_row "b"])%list, (0 + 1)%nat,
     Some (OtherException "'utf-8' codec can't encode character: surrogates not allowed")).
Proof.
  apply (X25_failed_write_ends_run Samples.cannot_encode_a [fallback_row "b"]
           (fallback_row "a")
           (OtherException "'utf-8' codec can't encode character: surrogates not allowed")
           [Returned (fallback_row "c")] [Header fieldnames] 0%nat).
  - intros r' [<-|[]]. reflexivity.
  - reflexivity.
Defined.
